(** * Observable: the async-state container and its named registry

    A shallow embedding of [Observable] (data / error / loading state around
    one asynchronous callback), of the completion handlers that [fetch]
    attaches to the promise, and of [updateObservable] with the
    [NAMED_OBSERVABLES] registry.

    JavaScript methods mutate [this] and may throw: they are embedded as
    computations of a small state-and-exception monad over the instance.
    What leaves the instance (the call of the constructor's callback, the
    dispatch of an event, the call of a per-call callback) is appended to a
    trace kept next to the fields, so that counting and ordering statements
    can be made about it. *)

From Stdlib Require Import ZArith List String Bool Lia.
From stdpp Require Import base option list strings gmap.

Local Open Scope string_scope.
Local Open Scope list_scope.

(** ** JavaScript values *)

(** The values the fields of an instance can hold, as far as [===] and
    truthiness can tell them apart.  A number other than NaN is represented
    by an integer ([+0] and [-0] are one number for both operations);
    an object, array or function by its reference.  [VError] is an error
    object made by a [throw new Error(..)] of this code. *)
Inductive value : Type :=
  | VUndefined
  | VNull
  | VBool (b : bool)
  | VNumber (n : Z)
  | VNaN
  | VString (s : string)
  | VObject (ref : nat)
  | VError (name message : string).

(** [a === b]: no conversion, objects by reference, and NaN equal to
    nothing, itself included. *)
Definition strict_equals (a b : value) : bool :=
  match a, b with
  | VUndefined, VUndefined => true
  | VNull, VNull => true
  | VBool x, VBool y => Bool.eqb x y
  | VNumber x, VNumber y => Z.eqb x y
  | VString x, VString y => String.eqb x y
  | VObject x, VObject y => Nat.eqb x y
  | VError n1 m1, VError n2 m2 => String.eqb n1 n2 && String.eqb m1 m2
  | _, _ => false
  end.

(** ToBoolean, as applied by [if (data)] and [!this.data]. *)
Definition truthy (v : value) : bool :=
  match v with
  | VUndefined | VNull | VNaN => false
  | VBool b => b
  | VNumber n => negb (Z.eqb n 0)
  | VString s => negb (String.eqb s "")
  | VObject _ | VError _ _ => true
  end.

Definition MOCKING : value := VString "MOCKING".

(** Whether a value is an error object made by this code. *)
Definition is_error_object (v : value) : bool :=
  match v with VError _ _ => true | _ => false end.

(** ** What an instance does to its environment *)

(** [ObservableMeta]: the three fields a listener such as [dataListener]
    copies out of the instance when an event reaches it. *)
Record ObservableMeta : Type := mkMeta {
  meta_data : value;
  meta_error : value;
  meta_isLoading : bool
}.

(** A per-call callback [cb?: (res: R) => void].  It is foreign code: the
    model keeps a tag to recognise it in the trace and, for each argument,
    whether the call returns ([None]) or throws ([Some e]). *)
Record Callback : Type := mkCallback {
  cb_tag : nat;
  cb_throws : value -> option value
}.

Inductive Effect : Type :=
  | Called (p : value)                             (* this.cb(p) *)
  | Dispatched (type : string) (seen : ObservableMeta)
                                                   (* dispatchEvent(new Event(type)) *)
  | Invoked (tag : nat) (arg : value).             (* cb(arg) *)

(** The promise returned by one [this.cb(params)], with the per-call
    callback its [then] handler closes over. *)
Record Pending : Type := mkPending {
  sent : value;
  on_result : option Callback
}.

(** ** The instance *)

Record Observable : Type := mkObservable {
  data : value;
  error : value;
  isAwake : bool;
  isLoading : bool;
  isLazy : bool;
  params : value;
  lastLoadedParams : value;
  (* environment of the instance *)
  inflight : list Pending;   (* promises not yet settled, oldest first *)
  trace : list Effect        (* effects so far, oldest first *)
}.

(** [new Observable(cb)] *)
Definition new_Observable : Observable :=
  {| data := VUndefined; error := VUndefined;
     isAwake := false; isLoading := false; isLazy := false;
     params := VUndefined; lastLoadedParams := VUndefined;
     inflight := []; trace := [] |}.

Definition set_data (v : value) (o : Observable) : Observable :=
  {| data := v; error := error o; isAwake := isAwake o;
     isLoading := isLoading o; isLazy := isLazy o; params := params o;
     lastLoadedParams := lastLoadedParams o;
     inflight := inflight o; trace := trace o |}.

Definition set_error (v : value) (o : Observable) : Observable :=
  {| data := data o; error := v; isAwake := isAwake o;
     isLoading := isLoading o; isLazy := isLazy o; params := params o;
     lastLoadedParams := lastLoadedParams o;
     inflight := inflight o; trace := trace o |}.

Definition set_isAwake (b : bool) (o : Observable) : Observable :=
  {| data := data o; error := error o; isAwake := b;
     isLoading := isLoading o; isLazy := isLazy o; params := params o;
     lastLoadedParams := lastLoadedParams o;
     inflight := inflight o; trace := trace o |}.

Definition set_isLoading (b : bool) (o : Observable) : Observable :=
  {| data := data o; error := error o; isAwake := isAwake o;
     isLoading := b; isLazy := isLazy o; params := params o;
     lastLoadedParams := lastLoadedParams o;
     inflight := inflight o; trace := trace o |}.

Definition set_isLazy (b : bool) (o : Observable) : Observable :=
  {| data := data o; error := error o; isAwake := isAwake o;
     isLoading := isLoading o; isLazy := b; params := params o;
     lastLoadedParams := lastLoadedParams o;
     inflight := inflight o; trace := trace o |}.

Definition set_params (v : value) (o : Observable) : Observable :=
  {| data := data o; error := error o; isAwake := isAwake o;
     isLoading := isLoading o; isLazy := isLazy o; params := v;
     lastLoadedParams := lastLoadedParams o;
     inflight := inflight o; trace := trace o |}.

Definition set_lastLoadedParams (v : value) (o : Observable) : Observable :=
  {| data := data o; error := error o; isAwake := isAwake o;
     isLoading := isLoading o; isLazy := isLazy o; params := params o;
     lastLoadedParams := v;
     inflight := inflight o; trace := trace o |}.

Definition set_inflight (l : list Pending) (o : Observable) : Observable :=
  {| data := data o; error := error o; isAwake := isAwake o;
     isLoading := isLoading o; isLazy := isLazy o; params := params o;
     lastLoadedParams := lastLoadedParams o;
     inflight := l; trace := trace o |}.

Definition emit (e : Effect) (o : Observable) : Observable :=
  {| data := data o; error := error o; isAwake := isAwake o;
     isLoading := isLoading o; isLazy := isLazy o; params := params o;
     lastLoadedParams := lastLoadedParams o;
     inflight := inflight o; trace := trace o ++ [e] |}.

Definition meta_of (o : Observable) : ObservableMeta :=
  {| meta_data := data o; meta_error := error o;
     meta_isLoading := isLoading o |}.

(** ** Methods as computations *)

(** A computation ends by returning a result or by throwing, and the state
    it has reached is kept in both cases. *)
Inductive Outcome (S A : Type) : Type :=
  | Return (a : A) (s : S)
  | Throw (e : value) (s : S).
Arguments Return {S A} a s.
Arguments Throw {S A} e s.

Definition state_of {S A} (r : Outcome S A) : S :=
  match r with Return _ s => s | Throw _ s => s end.

Definition throws {S A} (r : Outcome S A) : bool :=
  match r with Return _ _ => false | Throw _ _ => true end.

Definition Js (S A : Type) : Type := S -> Outcome S A.

Definition js_ret {S A} (a : A) : Js S A := fun s => Return a s.

Definition js_bind {S A B} (m : Js S A) (k : A -> Js S B) : Js S B :=
  fun s => match m s with
           | Return a s' => k a s'
           | Throw e s' => Throw e s'
           end.

Definition js_throw {S A} (e : value) : Js S A := fun s => Throw e s.

Definition js_get {S} : Js S S := fun s => Return s s.

Definition js_modify {S} (f : S -> S) : Js S unit := fun s => Return tt (f s).

Declare Scope js_scope.
Delimit Scope js_scope with js.
Notation "'let*' x := m 'in' k" := (js_bind m (fun x => k))
  (at level 10, x name, m at level 100, k at level 200) : js_scope.
Notation "m1 >> m2" := (js_bind m1 (fun _ => m2))
  (at level 60, right associativity) : js_scope.

Local Open Scope js_scope.

(** The methods of the class.  One that returns [this] for chaining
    returns [tt] here: the instance is the state. *)
Module Obs.

(** [this.dispatchEvent(new Event(type))]: the listeners run at once and
    see the fields as they are at this point; what a listener throws does
    not reach the caller.  The listeners this code attaches read the
    instance ([dataListener]) or write to another one ([connectData]). *)
Definition dispatchEvent (type : string) : Js Observable unit :=
  fun o => Return tt (emit (Dispatched type (meta_of o)) o).

(** [cb?.(arg)] *)
Definition call_optional (cb : option Callback) (arg : value)
  : Js Observable unit :=
  match cb with
  | None => js_ret tt
  | Some f =>
      js_modify (emit (Invoked (cb_tag f) arg)) >>
      match cb_throws f arg with
      | None => js_ret tt
      | Some e => js_throw e
      end
  end.

(** [this.cb(p).then(..).catch(..)]: the call is made now and, as its type
    says, returns a promise, which is pending until the environment settles
    it; the handlers run then, see [Completion.settle]. *)
Definition call_cb (p : value) (cb : option Callback) : Js Observable unit :=
  js_modify (emit (Called p)) >>
  js_modify (fun o => set_inflight (inflight o ++ [mkPending p cb]) o).

Definition setParams (p : value) : Js Observable unit :=
  js_modify (set_params p).

Definition fetch (p : value) (cb : option Callback) : Js Observable unit :=
  js_modify (set_params p) >>
  let* o := js_get in
  call_cb (params o) cb.

Definition load (reload : bool) (cb : option Callback) : Js Observable unit :=
  let* o := js_get in
  if isLoading o then js_ret tt
  else
    js_modify (set_isAwake true) >>
    let* o := js_get in
    if (negb reload && strict_equals (params o) (lastLoadedParams o))
       || strict_equals (lastLoadedParams o) MOCKING
    then
      if strict_equals (lastLoadedParams o) MOCKING && truthy (data o)
      then call_optional cb (data o)
      else js_ret tt
    else
      js_modify (set_lastLoadedParams (params o)) >>
      js_modify (set_error VUndefined) >>
      js_modify (set_isLoading true) >>
      dispatchEvent "loading" >>
      let* o := js_get in
      fetch (params o) cb.

Definition awaken : Js Observable unit :=
  let* o := js_get in
  if negb (isAwake o) then load true None else js_ret tt.

Definition do (cb : option Callback) : Js Observable unit := load true cb.

Definition reload : Js Observable unit := load true None.

Definition refetch (cb : option Callback) : Js Observable unit :=
  let* o := js_get in
  js_modify (set_lastLoadedParams (params o)) >>
  let* o := js_get in
  fetch (params o) cb.

Definition setData (d : value) : Js Observable unit :=
  (if truthy d then js_modify (set_isAwake true) else js_ret tt) >>
  js_modify (set_data d) >>
  dispatchEvent "data".

Definition lazy : Js Observable unit := js_modify (set_isLazy true).

(** The getter returns [this]: the result is the instance it was read on. *)
Definition ensured : Js Observable Observable :=
  let* o := js_get in
  if negb (isAwake o) then
    js_throw (VError "Error" "Loading has not yet started for this observable")
  else if negb (truthy (data o)) then
    js_throw (VError "Error"
      "Attempting to ensure data is available in an observable, but the observable is not ready")
  else js_get.

End Obs.

(** [load] goes on to [fetch] exactly when neither of its two guards
    returns. *)
Definition load_starts (reload : bool) (o : Observable) : bool :=
  negb (isLoading o) &&
  negb ((negb reload && strict_equals (params o) (lastLoadedParams o))
        || strict_equals (lastLoadedParams o) MOCKING).

(** What [cb?.(arg)] throws, if it throws. *)
Definition callback_failure (cb : option Callback) (arg : value)
  : option value :=
  match cb with
  | Some f => cb_throws f arg
  | None => None
  end.

(** ** Settlement of the promise *)

(** How the environment settles the promise of one underlying call:
    [Resolved d] is fulfilment with a result [res] whose [res.data] is [d]
    ([VUndefined] when the field is absent), [Rejected e] is rejection
    with [e]. *)
Inductive Settlement : Type :=
  | Resolved (res_data : value)
  | Rejected (err : value).

Definition js_catch {S A} (m : Js S A) (h : value -> Js S A) : Js S A :=
  fun s => match m s with
           | Return a s' => Return a s'
           | Throw e s' => h e s'
           end.

Module Completion.

(** The function given to [.then] in [fetch]. *)
Definition on_fulfilled (res_data : value) (cb : option Callback)
  : Js Observable unit :=
  Obs.setData res_data >>
  js_modify (set_error VUndefined) >>
  js_modify (set_isLoading false) >>
  Obs.call_optional cb res_data.

(** The function given to [.catch] in [fetch]. *)
Definition on_rejected (err : value) : Js Observable unit :=
  js_modify (set_error err) >>
  js_modify (set_isLoading false) >>
  Obs.dispatchEvent "error".

(** [p.then(f).catch(g)]: [g] receives the rejection of [p], and also
    whatever [f] throws. *)
Definition handlers (pd : Pending) (r : Settlement) : Js Observable unit :=
  match r with
  | Resolved d => js_catch (on_fulfilled d (on_result pd)) on_rejected
  | Rejected e => on_rejected e
  end.

(** The [i]-th pending promise is settled and its handlers run; [None] when
    there is no such promise. *)
Definition settle (i : nat) (r : Settlement) (o : Observable)
  : option Observable :=
  match inflight o !! i with
  | None => None
  | Some pd =>
      Some (state_of (handlers pd r (set_inflight (delete i (inflight o)) o)))
  end.

(** Settlements one after the other, each index taken in the list of
    promises pending at that moment. *)
Fixpoint settle_all (l : list (nat * Settlement)) (o : Observable)
  : option Observable :=
  match l with
  | [] => Some o
  | (i, r) :: l' =>
      match settle i r o with
      | None => None
      | Some o' => settle_all l' o'
      end
  end.

End Completion.

(** ** Counting the underlying calls *)

Fixpoint calls_in (t : list Effect) : nat :=
  match t with
  | [] => 0
  | Called _ :: t' => S (calls_in t')
  | _ :: t' => calls_in t'
  end.

(** Number of times the instance has called the constructor's callback. *)
Definition calls_issued (o : Observable) : nat := calls_in (trace o).

(** ** A history of an instance *)

Inductive Op : Type :=
  | OpSetParams (p : value)
  | OpLoad (reload : bool) (cb : option Callback)
  | OpDo (cb : option Callback)
  | OpReload
  | OpAwaken
  | OpRefetch (cb : option Callback)
  | OpSetData (d : value)
  | OpLazy
  | OpEnsured
  | OpSettle (i : nat) (r : Settlement).

(** The instance after one operation; an exception leaves the state it was
    thrown in, settling a promise that does not exist changes nothing. *)
Definition run_op (op : Op) (o : Observable) : Observable :=
  match op with
  | OpSetParams p => state_of (Obs.setParams p o)
  | OpLoad r cb => state_of (Obs.load r cb o)
  | OpDo cb => state_of (Obs.do cb o)
  | OpReload => state_of (Obs.reload o)
  | OpAwaken => state_of (Obs.awaken o)
  | OpRefetch cb => state_of (Obs.refetch cb o)
  | OpSetData d => state_of (Obs.setData d o)
  | OpLazy => state_of (Obs.lazy o)
  | OpEnsured => state_of (Obs.ensured o)
  | OpSettle i r => default o (Completion.settle i r o)
  end.

Definition run_ops (ops : list Op) (o : Observable) : Observable :=
  fold_left (fun acc op => run_op op acc) ops o.

Definition is_refetch (op : Op) : bool :=
  match op with OpRefetch _ => true | _ => false end.

(** The state of an instance that has had no [refetch]: nothing pending and
    not loading, or one promise pending and loading. *)
Definition single_flight (o : Observable) : Prop :=
  (inflight o = [] /\ isLoading o = false) \/
  (exists pd, inflight o = [pd] /\ isLoading o = true).

(** ** Settlement, handler by handler *)

(** [Completion.settle] runs the handlers of a promise in one step.  In
    the program the [then] handler calls the per-call callback, which can
    itself call methods of the instance before it returns or throws, and
    what it throws reaches the [catch] handler in a later microtask, after
    whatever else was run in between.  A schedule makes these steps
    apart. *)
Module Schedule.

(** The instance, with the exceptions of [then] handlers whose [catch]
    handler has not run yet. *)
Record State : Type := mkState {
  instance : Observable;
  uncaught : list value
}.

Inductive Step : Type :=
  | Method (op : Op)
      (* a method call, or a settlement taken in one step *)
  | Then (i : nat) (d : value) (inside : list Op)
      (* the [then] handler of the [i]-th pending promise runs with
         [res.data = d]; its callback, if any, makes the calls [inside]
         and then returns or throws *)
  | Catch.
      (* the [catch] handler runs for the oldest uncaught exception *)

(** The [then] handler up to the call of the callback. *)
Definition before_callback (d : value) : Js Observable unit :=
  Obs.setData d >>
  js_modify (set_error VUndefined) >>
  js_modify (set_isLoading false).

Definition run_step (st : Step) (s : State) : State :=
  match st with
  | Method op => mkState (run_op op (instance s)) (uncaught s)
  | Then i d inside =>
      let o := instance s in
      match inflight o !! i with
      | None => s
      | Some pd =>
          let o1 := state_of (before_callback d
                                (set_inflight (delete i (inflight o)) o)) in
          match on_result pd with
          | None => mkState o1 (uncaught s)
          | Some f =>
              let o2 := run_ops inside (emit (Invoked (cb_tag f) d) o1) in
              match cb_throws f d with
              | None => mkState o2 (uncaught s)
              | Some e => mkState o2 (uncaught s ++ [e])
              end
          end
      end
  | Catch =>
      match uncaught s with
      | [] => s
      | e :: rest =>
          mkState (state_of (Completion.on_rejected e (instance s))) rest
      end
  end.

Definition run_steps (steps : list Step) (s : State) : State :=
  fold_left (fun acc st => run_step st acc) steps s.

Definition is_settle (op : Op) : bool :=
  match op with OpSettle _ _ => true | _ => false end.

(** Whether the callback of the [i]-th pending promise throws on [d]. *)
Definition callback_throws (i : nat) (d : value) (o : Observable) : bool :=
  match inflight o !! i with
  | Some pd =>
      match callback_failure (on_result pd) d with
      | Some _ => true
      | None => false
      end
  | None => false
  end.

(** A step that leaves the single slot alone: no [refetch]; no method
    call and no [then] handler while an exception waits for its [catch]
    handler; a callback calls methods, none of them [refetch], only if it
    does not throw. *)
Definition undisturbed_step (st : Step) (s : State) : bool :=
  match st with
  | Method op =>
      negb (is_refetch op) &&
      match uncaught s with [] => true | _ => false end
  | Then i d inside =>
      match uncaught s with [] => true | _ => false end &&
      forallb (fun op => negb (is_refetch op) && negb (is_settle op)) inside &&
      (negb (callback_throws i d (instance s)) ||
       match inside with [] => true | _ => false end)
  | Catch => true
  end.

Fixpoint undisturbed (steps : list Step) (s : State) : bool :=
  match steps with
  | [] => true
  | st :: rest => undisturbed_step st s && undisturbed rest (run_step st s)
  end.

Definition initial : State := mkState new_Observable [].

End Schedule.

(** What an undisturbed schedule keeps: the single slot, and [isLoading]
    false while an exception waits for its [catch] handler. *)
Definition slot_kept (s : Schedule.State) : Prop :=
  single_flight (Schedule.instance s) /\
  (Schedule.uncaught s <> [] -> isLoading (Schedule.instance s) = false).

(** ** Reading a history back *)

(** The argument of the most recent underlying call in a trace. *)
Fixpoint last_called (t : list Effect) : option value :=
  match t with
  | [] => None
  | e :: t' =>
      match last_called t' with
      | Some p => Some p
      | None => match e with Called p => Some p | _ => None end
      end
  end.


(** ** The hooks, as far as they act on the instance *)

Module Hook.

(** [useObservable], in the body of the component:
    [if (params) observable.setParams(params)], at every render. *)
Definition render (params : value) : Js Observable unit :=
  if truthy params then Obs.setParams params else js_ret tt.

(** [useObservable], second effect, run once after the first render: the
    three listeners are attached and the first load is started; the
    listeners are [dataListener], which leaves the instance alone. *)
Definition attach : Js Observable unit :=
  let* o := js_get in
  if negb (isAwake o) && negb (isLazy o) then Obs.load true None
  else js_ret tt.

(** First render and its effect. *)
Definition mount (params : value) : Js Observable unit :=
  render params >> attach.


End Hook.

(** ** Instances connected by [connectData] *)

(** [this.connectData(observable)] adds to [observable] a listener of
    "data" that calls [this.setData(observable.data)].  A net is a store of
    instances with, for each of them, the instances that listen to it in
    this way, in the order of the calls; the same instance is listed once
    per call, each call making a listener of its own. *)
Module Net.

Record t : Type := mk {
  instances : gmap nat Observable;
  data_listeners : gmap nat (list nat)
}.

Definition listeners_of (r : nat) (n : t) : list nat :=
  default [] (data_listeners n !! r).

(** Returns [observable], not [this]. *)
Definition connectData (this observable : nat) (n : t) : nat * t :=
  (observable,
   mk (instances n)
      (<[observable := listeners_of observable n ++ [this]]>
         (data_listeners n))).

(** The listeners of [observable] run one after the other; each reads
    [observable.data] when it runs. *)
Definition notify (setData : nat -> value -> t -> option t)
    (observable : nat) : list nat -> t -> option t :=
  fix go (ls : list nat) (n : t) : option t :=
    match ls with
    | [] => Some n
    | this :: ls' =>
        match instances n !! observable with
        | None => None
        | Some o =>
            match setData this (data o) n with
            | None => None
            | Some n' => go ls' n'
            end
        end
    end.

(** [setData] on the instance [r] of a net, the listeners included.  The
    listeners call [setData] in turn, so the calls nest; [fuel] bounds the
    depth of the nesting, and the result is [None] when that depth is
    reached (or when a reference denotes no instance).  [None] is not an
    exception of the program: it says that the net after the call is not
    determined within this depth. *)
Fixpoint setData (fuel : nat) (r : nat) (d : value) (n : t) : option t :=
  match fuel with
  | 0 => None
  | S fuel' =>
      match instances n !! r with
      | None => None
      | Some o =>
          let n1 := mk (<[r := state_of (Obs.setData d o)]> (instances n))
                       (data_listeners n) in
          notify (setData fuel') r (listeners_of r n1) n1
      end
  end.

(** The net with the instance at [r] replaced. *)
Definition with_instance (r : nat) (o : Observable) (n : t) : t :=
  mk (<[r := o]> (instances n)) (data_listeners n).

(** The instance after [setData(d)]. *)
Definition after_setData (d : value) (o : Observable) : Observable :=
  state_of (Obs.setData d o).

(** Two nets with the same connections, the second with at least the
    instances of the first. *)
Definition same_shape (n n' : t) : Prop :=
  data_listeners n' = data_listeners n /\
  forall r, is_Some (instances n !! r) -> is_Some (instances n' !! r).

(** [r] and [r'] are connected to each other. *)
Definition mutually_connected (r r' : nat) (n : t) : Prop :=
  is_Some (instances n !! r) /\ is_Some (instances n !! r') /\
  In r' (listeners_of r n) /\ In r (listeners_of r' n).

End Net.

(** ** The registry of named instances *)

(** [NAMED_OBSERVABLES] is an object literal used as a map from names to
    instances.  Its own keys are the names assigned to it, except
    [__proto__]: an assignment to that key replaces the prototype of the
    object, which is [Object.prototype] at first, and a [delete] of that
    key does nothing.  The instances are those of a net, so that the
    [setData] of [updateObservable] runs the listeners of [connectData]. *)
Record Runtime : Type := mkRuntime {
  net : Net.t;
  NAMED_OBSERVABLES : gmap string nat;
  registry_prototype : option nat    (* [None]: [Object.prototype] *)
}.

Definition with_net (n : Net.t) (rt : Runtime) : Runtime :=
  mkRuntime n (NAMED_OBSERVABLES rt) (registry_prototype rt).

(** Every reference held by the registry denotes an instance, and
    [__proto__] is not among its own keys. *)
Definition registry_wf (rt : Runtime) : Prop :=
  map_Forall (fun (_ : string) (r : nat) =>
                is_Some (Net.instances (net rt) !! r))
    (NAMED_OBSERVABLES rt) /\
  NAMED_OBSERVABLES rt !! "__proto__" = None.

(** The properties of [Object.prototype]: all truthy, none an
    [Observable]. *)
Definition Object_prototype_keys : list string :=
  [ "constructor"; "hasOwnProperty"; "isPrototypeOf"; "propertyIsEnumerable";
    "toLocaleString"; "toString"; "valueOf"; "__proto__";
    "__defineGetter__"; "__defineSetter__";
    "__lookupGetter__"; "__lookupSetter__" ].

(** The accessors of [Observable.prototype] that have no setter. *)
Definition getter_only_keys : list string := [ "lazy"; "ensured" ].

(** What [NAMED_OBSERVABLES[name]] evaluates to. *)
Inductive Property : Type :=
  | Found (ref : nat)   (* an instance *)
  | Inherited           (* a property of [Object.prototype] *)
  | Absent              (* [undefined] *)
  | Unmodelled.         (* a property reached through a replaced prototype,
                           other than the prototype itself *)

Definition get_named (name : string) (rt : Runtime) : Property :=
  match NAMED_OBSERVABLES rt !! name with
  | Some r => Found r
  | None =>
      match registry_prototype rt with
      | None =>
          if bool_decide (name ∈ Object_prototype_keys) then Inherited
          else Absent
      | Some p => if String.eqb name "__proto__" then Found p else Unmodelled
      end
  end.

(** [updateObservable(name, data)].  [fuel] is that of [Net.setData]; the
    result is [None] when the calls of [setData] nest deeper than [fuel],
    and where the look-up is not modelled. *)
Definition updateObservable (fuel : nat) (name : string) (d : value)
    (rt : Runtime) : option (Outcome Runtime unit) :=
  match get_named name rt with
  | Found r =>
      (fun n' => Return tt (with_net n' rt)) <$> Net.setData fuel r d (net rt)
  | Inherited =>
      Some (Throw (VError "TypeError"
                     "NAMED_OBSERVABLES[name].setData is not a function") rt)
  | Absent =>
      Some (Throw (VError "Error"
                     (name ++ " is not a current observable and cannot be updated")%string)
                  rt)
  | Unmodelled => None
  end.

Definition raises {S A} (res : option (Outcome S A)) : bool :=
  match res with
  | Some (Throw _ _) => true
  | _ => false
  end.

(** The effect of [useObservable] that registers the instance of a named
    hook: [NAMED_OBSERVABLES[testId] = observable] unless [testId] is
    "default".  Under a replaced prototype the assignment to a name that
    is an accessor without setter there, and not an own key, adds no
    key. *)
Definition track_named (testId : string) (r : nat) (rt : Runtime) : Runtime :=
  if String.eqb testId "default" then rt
  else if String.eqb testId "__proto__"
  then mkRuntime (net rt) (NAMED_OBSERVABLES rt) (Some r)
  else
    match registry_prototype rt, NAMED_OBSERVABLES rt !! testId with
    | Some _, None =>
        if bool_decide (testId ∈ getter_only_keys) then rt
        else mkRuntime (net rt) (<[testId:=r]> (NAMED_OBSERVABLES rt))
                       (registry_prototype rt)
    | _, _ =>
        mkRuntime (net rt) (<[testId:=r]> (NAMED_OBSERVABLES rt))
                  (registry_prototype rt)
    end.

(** Its clean-up: [delete NAMED_OBSERVABLES[testId]]. *)
Definition untrack_named (testId : string) (rt : Runtime) : Runtime :=
  if String.eqb testId "default" then rt
  else mkRuntime (net rt) (delete testId (NAMED_OBSERVABLES rt))
                 (registry_prototype rt).

(** Hooks mounting and unmounting. *)
Inductive RegistryEvent : Type :=
  | Mounted (testId : string) (r : nat)
  | Unmounted (testId : string).

Definition event_name (ev : RegistryEvent) : string :=
  match ev with Mounted t _ => t | Unmounted t => t end.

Definition registry_event (ev : RegistryEvent) (rt : Runtime) : Runtime :=
  match ev with
  | Mounted t r => track_named t r rt
  | Unmounted t => untrack_named t rt
  end.

Definition registry_events (evs : list RegistryEvent) (rt : Runtime)
  : Runtime :=
  fold_left (fun acc ev => registry_event ev acc) evs rt.

(** ** [ObservableLoader] *)

Module Loader.

Section Elements.

(** React elements are values of the host framework. *)
Variable ReactElement : Type.

(** [Partial<{ loading: boolean; error: string | Error }>] *)
Record Observe : Type := mkObserve {
  observe_loading : value;
  observe_error : value
}.

Record ObservableLoaderProps : Type := mkProps {
  observe : Observe;
  children : unit -> ReactElement;
  loadingContent : ReactElement;
  errorContent : ReactElement
}.

(** One render.  [loaded] is whether the ref [loaded.current] holds [true]
    rather than [undefined]; the second component is the ref after the
    render. *)
Definition ObservableLoader (p : ObservableLoaderProps) (loaded : bool)
  : ReactElement * bool :=
  let isFirstLoad := negb loaded in
  (if isFirstLoad && truthy (observe_loading (observe p))
   then loadingContent p
   else if truthy (observe_error (observe p)) then errorContent p
   else children p tt,
   true).

(** The renders of one component instance, whose ref starts out
    [undefined]. *)
Fixpoint renders_from (loaded : bool) (ps : list ObservableLoaderProps)
  : list ReactElement :=
  match ps with
  | [] => []
  | p :: ps' =>
      let '(e, loaded') := ObservableLoader p loaded in
      e :: renders_from loaded' ps'
  end.

Definition renders (ps : list ObservableLoaderProps) : list ReactElement :=
  renders_from false ps.

End Elements.

Arguments observe {ReactElement} _.
Arguments children {ReactElement} _ _.
Arguments loadingContent {ReactElement} _.
Arguments errorContent {ReactElement} _.
Arguments ObservableLoader {ReactElement} p loaded.
Arguments renders_from {ReactElement} loaded ps.
Arguments renders {ReactElement} ps.

End Loader.

(** ** The rows: the api stub and the model built on it *)

Module RowsApi.

Record Row : Type := mkRow { name : string }.

Record GetRowsRequest : Type := mkRequest {
  id : string;
  causeError : option bool      (* causeError?: boolean *)
}.

(** How a promise ends. *)
Inductive Settled : Type :=
  | Resolves (rows : list Row)
  | Rejects (cause : string).

(** [Rows.getRows(args)]: what its promise settles to when the timer
    fires. *)
Definition getRows (args : GetRowsRequest) : Settled :=
  if negb (default false (causeError args))
  then Resolves [mkRow "row-1"; mkRow "row-2"]
  else Rejects "This is an error".

(** The callback the model [getRows] gives to [new Observable]:
    [({ id }) => Rows.getRows({ id: id })]. *)
Definition model_callback (params : GetRowsRequest) : Settled :=
  getRows (mkRequest (id params) None).

End RowsApi.

(** * Properties *)

(** ** Evaluation of the computations *)

Ltac js_unfold :=
  unfold Obs.awaken, Obs.do, Obs.reload, Obs.refetch, Obs.load, Obs.fetch,
    Obs.call_cb, Obs.setData, Obs.setParams, Obs.lazy, Obs.ensured,
    Obs.call_optional, Obs.dispatchEvent,
    Completion.on_fulfilled, Completion.on_rejected,
    js_catch, js_bind, js_get, js_modify, js_ret, js_throw.

Ltac js_run := repeat (progress (js_unfold; cbn)).

Ltac conjs := repeat match goal with |- _ /\ _ => split end.

Lemma calls_in_app (t u : list Effect) :
  calls_in (t ++ u) = calls_in t + calls_in u.
Proof.
  induction t as [|e t IH]; [reflexivity|].
  destruct e; cbn; rewrite IH; reflexivity.
Qed.

Lemma set_isAwake_id (o : Observable) :
  isAwake o = true -> set_isAwake true o = o.
Proof. destruct o; cbn; intros ->; reflexivity. Qed.

(** ** [load] by cases *)

Lemma load_while_loading (r : bool) (cb : option Callback) (o : Observable) :
  isLoading o = true -> Obs.load r cb o = Return tt o.
Proof. intros H. js_run. rewrite H. reflexivity. Qed.

Lemma load_started (r : bool) (cb : option Callback) (o : Observable) :
  load_starts r o = true ->
  exists o',
    Obs.load r cb o = Return tt o' /\
    data o' = data o /\ error o' = VUndefined /\
    isAwake o' = true /\ isLoading o' = true /\ isLazy o' = isLazy o /\
    params o' = params o /\ lastLoadedParams o' = params o /\
    inflight o' = inflight o ++ [mkPending (params o) cb] /\
    trace o' =
      trace o ++
      [Dispatched "loading" (mkMeta (data o) VUndefined true);
       Called (params o)].
Proof.
  unfold load_starts. intros H.
  apply andb_true_iff in H as [Hl Hg].
  apply negb_true_iff in Hl. apply negb_true_iff in Hg.
  js_run. rewrite Hl. cbn. rewrite Hg. cbn.
  eexists. split; [reflexivity|]. cbn.
  rewrite <- app_assoc. repeat split; reflexivity.
Qed.

Lemma load_skipped (r : bool) (cb : option Callback) (o : Observable) :
  isLoading o = false -> load_starts r o = false ->
  let o' := state_of (Obs.load r cb o) in
  data o' = data o /\ error o' = error o /\
  isAwake o' = true /\ isLoading o' = false /\ isLazy o' = isLazy o /\
  params o' = params o /\ lastLoadedParams o' = lastLoadedParams o /\
  inflight o' = inflight o /\
  (trace o' = trace o \/
   exists f, cb = Some f /\ trace o' = trace o ++ [Invoked (cb_tag f) (data o)]).
Proof.
  unfold load_starts. intros Hl Hg. rewrite Hl in Hg. cbn in Hg.
  apply negb_false_iff in Hg.
  js_run. rewrite Hl. cbn. rewrite Hg.
  destruct (strict_equals (lastLoadedParams o) MOCKING && truthy (data o)).
  - destruct cb as [f|]; cbn.
    + destruct (cb_throws f (data o)); cbn;
        repeat split; try reflexivity; try assumption;
        right; eexists; split; reflexivity.
    + repeat split; try reflexivity; try assumption; left; reflexivity.
  - cbn. repeat split; try reflexivity; try assumption; left; reflexivity.
Qed.

(** ** What a settlement leaves alone *)

Section Settlement_frame.

Import Completion.

Lemma handlers_frame (pd : Pending) (r : Settlement) (o : Observable) :
  let o' := state_of (handlers pd r o) in
  params o' = params o /\ lastLoadedParams o' = lastLoadedParams o /\
  isLazy o' = isLazy o /\ inflight o' = inflight o /\
  isLoading o' = false /\
  (isAwake o = true -> isAwake o' = true) /\
  calls_in (trace o') = calls_in (trace o).
Proof.
  destruct r as [d|e]; cbn.
  - js_run. destruct (truthy d); cbn;
      (destruct (on_result pd) as [f|]; cbn;
       [destruct (cb_throws f d); cbn|]);
      repeat split; auto; rewrite ?calls_in_app; cbn; lia.
  - js_run. repeat split; auto. rewrite calls_in_app. cbn. lia.
Qed.

Lemma settle_frame (i : nat) (r : Settlement) (o o' : Observable) :
  settle i r o = Some o' ->
  params o' = params o /\ lastLoadedParams o' = lastLoadedParams o /\
  inflight o' = delete i (inflight o) /\
  isLoading o' = false /\
  (isAwake o = true -> isAwake o' = true) /\
  calls_issued o' = calls_issued o.
Proof.
  unfold settle, calls_issued.
  destruct (inflight o !! i) as [pd|]; [|discriminate].
  intros [= <-].
  destruct (handlers_frame pd r (set_inflight (delete i (inflight o)) o))
    as (Hp & Hl & _ & Hi & Hld & Ha & Hc).
  repeat split; assumption.
Qed.

Lemma settle_all_frame (l : list (nat * Settlement)) (o o' : Observable) :
  settle_all l o = Some o' ->
  params o' = params o /\ lastLoadedParams o' = lastLoadedParams o /\
  (isAwake o = true -> isAwake o' = true) /\
  calls_issued o' = calls_issued o.
Proof.
  revert o. induction l as [|[i r] l IH]; intros o; cbn.
  - intros [= <-]. repeat split; auto.
  - destruct (settle i r o) as [o1|] eqn:E; [|discriminate].
    intros H. apply IH in H as (Hp & Hl & Ha & Hc).
    apply settle_frame in E as (Hp1 & Hl1 & _ & _ & Ha1 & Hc1).
    repeat split; try congruence. auto.
Qed.

End Settlement_frame.

(** ** Two loads with the same params *)

(** C1, as stated, fails on a new instance whose params were never set:
    [params] and [lastLoadedParams] are both [undefined], the first
    [load()] already returns at the equality guard, and the two calls
    together issue no underlying call. *)
Lemma C1_counterexample_new_instance :
  let o1 := state_of (Obs.load false None new_Observable) in
  let o2 := state_of (Obs.load false None o1) in
  params o1 = params new_Observable /\
  calls_issued o2 = calls_issued new_Observable /\
  calls_issued o2 <> calls_issued new_Observable + 1.
Proof. vm_compute. repeat split. discriminate. Qed.

(** C1, amended: when the first [load] passes both guards and [params] is
    identical to itself under [===], the first call issues one underlying
    call and a second [load] with [reload = false] issues none, whatever
    promises were settled in between; unless [params] is the MOCKING
    sentinel the second call changes nothing at all. *)
Theorem C1_second_load_issues_nothing
  (o : Observable) (r1 : bool) (cb1 cb2 : option Callback)
  (mid : list (nat * Settlement)) (o1 : Observable) :
  load_starts r1 o = true ->
  strict_equals (params o) (params o) = true ->
  Completion.settle_all mid (state_of (Obs.load r1 cb1 o)) = Some o1 ->
  let o2 := state_of (Obs.load false cb2 o1) in
  calls_issued o2 = calls_issued o + 1 /\
  calls_issued o2 = calls_issued o1 /\
  inflight o2 = inflight o1 /\
  (strict_equals (params o) MOCKING = false ->
   Obs.load false cb2 o1 = Return tt o1).
Proof.
  intros Hst Hrefl Hmid.
  destruct (load_started r1 cb1 o Hst)
    as (o0 & E0 & _ & _ & Haw & _ & _ & Hp & Hlp & _ & Htr).
  rewrite E0 in Hmid. cbn in Hmid.
  apply settle_all_frame in Hmid as (Hp1 & Hlp1 & Haw1 & Hc1).
  specialize (Haw1 Haw).
  assert (Hc0 : calls_issued o0 = calls_issued o + 1).
  { unfold calls_issued. rewrite Htr, calls_in_app. reflexivity. }
  assert (Heq : strict_equals (params o1) (lastLoadedParams o1) = true)
    by (rewrite Hp1, Hlp1, Hp, Hlp; exact Hrefl).
  destruct (isLoading o1) eqn:Hl.
  - rewrite (load_while_loading false cb2 o1 Hl). cbn.
    repeat split; auto; congruence.
  - assert (Hna : load_starts false o1 = false)
      by (unfold load_starts; rewrite Hl, Heq; reflexivity).
    destruct (load_skipped false cb2 o1 Hl Hna)
      as (_ & _ & _ & _ & _ & _ & _ & Hin & Ht).
    cbn zeta.
    assert (Hc2 : calls_issued (state_of (Obs.load false cb2 o1))
                  = calls_issued o1).
    { unfold calls_issued.
      destruct Ht as [-> | (f & _ & ->)]; [reflexivity|].
      rewrite calls_in_app. cbn. lia. }
    repeat split; auto; try congruence.
    intros Hm. js_run. rewrite Hl. cbn. rewrite Heq. cbn.
    rewrite Hlp1, Hlp, Hm. cbn.
    rewrite (set_isAwake_id o1 Haw1). reflexivity.
Qed.

Lemma C1_second_load_issues_nothing_witness :
  let o := state_of (Obs.setParams (VObject 1) new_Observable) in
  let o1 := run_ops [OpLoad false None; OpSettle 0 (Resolved (VObject 2))] o in
  load_starts false o = true /\
  calls_issued (state_of (Obs.load false None o1)) = calls_issued o + 1.
Proof.
  intros o o1. split; [reflexivity|].
  apply (C1_second_load_issues_nothing o false None None
           [(0, Resolved (VObject 2))] o1); vm_compute; reflexivity.
Defined.

(** ** One request in flight *)

Lemma load_single_flight (r : bool) (cb : option Callback) (o : Observable) :
  single_flight o -> single_flight (state_of (Obs.load r cb o)).
Proof.
  intros H. destruct (isLoading o) eqn:Hl.
  - rewrite load_while_loading by assumption. exact H.
  - destruct (load_starts r o) eqn:Ha.
    + destruct (load_started r cb o Ha)
        as (o' & -> & _ & _ & _ & Hl' & _ & _ & _ & Hi & _).
      cbn. right. destruct H as [[Hn _] | (pd & _ & Hc)]; [|congruence].
      rewrite Hn in Hi. eexists. split; [exact Hi | exact Hl'].
    + destruct (load_skipped r cb o Hl Ha)
        as (_ & _ & _ & Hl' & _ & _ & _ & Hi & _).
      unfold single_flight. rewrite Hi, Hl'.
      destruct H as [[Hn _] | (pd & _ & Hc)]; [|congruence].
      left. split; [assumption | reflexivity].
Qed.

Lemma settle_single_flight (i : nat) (r : Settlement) (o o' : Observable) :
  single_flight o -> Completion.settle i r o = Some o' -> single_flight o'.
Proof.
  intros H E. pose proof E as E'.
  apply settle_frame in E' as (_ & _ & Hi & Hl & _ & _).
  unfold Completion.settle in E.
  destruct (inflight o !! i) as [pd|] eqn:Hlk; [|discriminate].
  left. split; [|assumption].
  rewrite Hi. destruct H as [[Hn _] | (pd' & Hn & _)]; rewrite Hn in *.
  - destruct i; discriminate.
  - destruct i as [|i]; [reflexivity|]. destruct i; discriminate.
Qed.

Lemma run_op_single_flight (op : Op) (o : Observable) :
  is_refetch op = false -> single_flight o -> single_flight (run_op op o).
Proof.
  intros Hop H. destruct op; cbn [run_op]; try discriminate.
  - exact H.
  - apply load_single_flight, H.
  - apply load_single_flight, H.
  - apply load_single_flight, H.
  - unfold Obs.awaken, js_bind, js_get.
    destruct (negb (isAwake o)); [apply load_single_flight, H | exact H].
  - js_run. destruct (truthy d); exact H.
  - exact H.
  - js_run. destruct (negb (isAwake o)); [exact H|].
    destruct (negb (truthy (data o))); exact H.
  - destruct (Completion.settle i r o) as [o'|] eqn:E; cbn; [|exact H].
    eapply settle_single_flight; eassumption.
Qed.

Lemma run_ops_single_flight (ops : list Op) (o : Observable) :
  forallb (fun op => negb (is_refetch op)) ops = true ->
  single_flight o -> single_flight (run_ops ops o).
Proof.
  revert o. induction ops as [|op ops IH]; intros o Hall H; [exact H|].
  cbn in Hall. apply andb_true_iff in Hall as [Hop Hall].
  apply negb_true_iff in Hop.
  cbn. apply IH; [assumption|]. apply run_op_single_flight; assumption.
Qed.

(** C2, as stated, fails: [refetch] calls [fetch] without looking at
    [isLoading], so after [load(true)] a [refetch] starts a second
    underlying call while the first is pending and [isLoading] is true. *)
Lemma C2_counterexample_refetch_while_loading :
  let o1 := run_ops [OpSetParams (VObject 1); OpLoad true None] new_Observable in
  let o2 := state_of (Obs.refetch None o1) in
  isLoading o1 = true /\ length (inflight o1) = 1 /\
  isLoading o2 = true /\ length (inflight o2) = 2 /\
  calls_issued o2 = calls_issued o1 + 1.
Proof. vm_compute. repeat split; reflexivity. Qed.

(** The schedule refines the settlement in one step: a [then] handler
    whose callback calls no method, followed at once by the [catch]
    handler, is [Completion.settle]. *)
Lemma then_catch_is_settle (i : nat) (d : value) (o : Observable) :
  Schedule.run_steps [Schedule.Then i d []; Schedule.Catch]
    (Schedule.mkState o []) =
  Schedule.mkState (run_op (OpSettle i (Resolved d)) o) [].
Proof.
  unfold Schedule.run_steps. cbn [fold_left run_op Schedule.run_step
    Schedule.instance Schedule.uncaught].
  unfold Completion.settle.
  destruct (inflight o !! i) as [pd|]; [|reflexivity].
  cbn [Completion.handlers default]. unfold Schedule.before_callback.
  destruct (on_result pd) as [f|]; [destruct (cb_throws f d) eqn:Hf|];
    js_run; rewrite ?Hf; cbn; destruct (truthy d); reflexivity.
Qed.

Lemma run_step_slot (st : Schedule.Step) (s : Schedule.State) :
  Schedule.undisturbed_step st s = true ->
  slot_kept s -> slot_kept (Schedule.run_step st s).
Proof.
  intros Hst [Hsf Hun]. destruct st as [op | i d inside |]; cbn in Hst |- *.
  - apply andb_true_iff in Hst as [Hop Hq]. apply negb_true_iff in Hop.
    destruct (Schedule.uncaught s) eqn:Hu; [|discriminate].
    split; cbn; [|cbn; congruence].
    apply run_op_single_flight; assumption.
  - apply andb_true_iff in Hst as [Hst Hthrow].
    apply andb_true_iff in Hst as [Hq Hinside].
    destruct (Schedule.uncaught s) eqn:Hu; [|discriminate].
    unfold Schedule.callback_throws in Hthrow.
    destruct (inflight (Schedule.instance s) !! i) as [pd|] eqn:Hlk;
      [|split; [exact Hsf | cbn; congruence]].
    assert (Hdel : delete i (inflight (Schedule.instance s)) = []).
    { destruct Hsf as [[Hn _] | (pd' & Hn & _)]; rewrite Hn in *.
      - destruct i; discriminate.
      - destruct i as [|i]; [reflexivity|]. destruct i; discriminate. }
    rewrite Hdel.
    set (o1 := state_of (Schedule.before_callback d
                           (set_inflight [] (Schedule.instance s)))).
    assert (H1 : inflight o1 = [] /\ isLoading o1 = false).
    { unfold o1, Schedule.before_callback. js_run.
      destruct (truthy d); split; reflexivity. }
    destruct H1 as [Hi1 Hl1].
    destruct (on_result pd) as [f|].
    + assert (Hsf2 : single_flight
                       (run_ops inside (emit (Invoked (cb_tag f) d) o1))).
      { apply run_ops_single_flight.
        - clear - Hinside. induction inside as [|op ops IH]; [reflexivity|].
          cbn in *. apply andb_true_iff in Hinside as [Hop Hall].
          apply andb_true_iff in Hop as [Hop _].
          rewrite Hop. cbn. apply IH, Hall.
        - left. split; assumption. }
      cbn [callback_failure] in Hthrow.
      destruct (cb_throws f d) as [e|]; cbn.
      * split; [exact Hsf2|]. intros _.
        cbn in Hthrow. destruct inside; [|discriminate]. exact Hl1.
      * split; [exact Hsf2|]. cbn. congruence.
    + cbn. split; [left; split; assumption | cbn; congruence].
  - destruct (Schedule.uncaught s) as [|e rest] eqn:Hu.
    + split; [exact Hsf | cbn; congruence].
    + assert (Hl : isLoading (Schedule.instance s) = false)
        by (apply Hun; congruence).
      assert (Hn : inflight (Schedule.instance s) = []).
      { destruct Hsf as [[Hn _] | (pd & _ & Hc)]; [exact Hn | congruence]. }
      cbn. split.
      * left. js_run. split; [exact Hn | reflexivity].
      * intros _. js_run. reflexivity.
Qed.

Lemma run_steps_slot (steps : list Schedule.Step) (s : Schedule.State) :
  Schedule.undisturbed steps s = true ->
  slot_kept s -> single_flight (Schedule.instance (Schedule.run_steps steps s)).
Proof.
  revert s. induction steps as [|st steps IH]; intros s Hall H.
  - exact (proj1 H).
  - cbn in Hall. apply andb_true_iff in Hall as [Hst Hall].
    change (Schedule.run_steps (st :: steps) s)
      with (Schedule.run_steps steps (Schedule.run_step st s)).
    apply IH; [exact Hall|]. apply run_step_slot; assumption.
Qed.

(** C2, amended: take any schedule of a new instance in which [refetch]
    is never called, no method is called and no [then] handler runs
    between the exception of a callback and the [catch] handler that
    receives it, and a callback that throws has called no method of the
    instance.  Then at most one request is pending; while one is pending
    [isLoading] is true and every [load] returns at once, leaving the
    instance as it is (nothing issued, nothing queued). *)
Theorem C2_single_flight_when_undisturbed (steps : list Schedule.Step) :
  Schedule.undisturbed steps Schedule.initial = true ->
  let o := Schedule.instance (Schedule.run_steps steps Schedule.initial) in
  length (inflight o) <= 1 /\
  (inflight o <> [] ->
   isLoading o = true /\
   forall r cb, Obs.load r cb o = Return tt o).
Proof.
  intros Hall o.
  assert (H : single_flight o).
  { apply (run_steps_slot steps Schedule.initial Hall).
    split; [left; split; reflexivity | intros _; reflexivity]. }
  destruct H as [[Hn Hl] | (pd & Hn & Hl)]; rewrite Hn; cbn.
  - split; [lia|]. intros Hc. congruence.
  - split; [lia|]. intros _. split; [assumption|].
    intros r cb. apply load_while_loading. assumption.
Qed.

Lemma C2_single_flight_when_undisturbed_witness :
  let cb := mkCallback 5 (fun _ => Some (VString "x")) in
  let steps :=
    [Schedule.Method (OpSetParams (VObject 1));
     Schedule.Method (OpDo (Some cb));
     Schedule.Then 0 (VObject 2) [];
     Schedule.Catch;
     Schedule.Method (OpLoad true None);
     Schedule.Method OpReload] in
  let o := Schedule.instance (Schedule.run_steps steps Schedule.initial) in
  length (inflight o) <= 1 /\
  (inflight o <> [] ->
   isLoading o = true /\ forall r cb, Obs.load r cb o = Return tt o).
Proof.
  intros cb steps.
  apply (C2_single_flight_when_undisturbed steps).
  vm_compute. reflexivity.
Defined.

(** Why the callbacks matter: a callback that calls [reload] and then
    throws leaves a call pending with [isLoading] false, the [catch]
    handler having cleared it, and the next [load(true)] puts a second
    call in flight.  No [refetch] is involved. *)
Lemma reentrant_throwing_callback_two_in_flight :
  let cb := mkCallback 5 (fun _ => Some (VString "x")) in
  let steps :=
    [Schedule.Method (OpSetParams (VObject 1));
     Schedule.Method (OpDo (Some cb));
     Schedule.Then 0 (VObject 2) [OpReload];
     Schedule.Catch] in
  let o := Schedule.instance (Schedule.run_steps steps Schedule.initial) in
  Schedule.undisturbed steps Schedule.initial = false /\
  isLoading o = false /\ length (inflight o) = 1 /\
  length (inflight (state_of (Obs.load true None o))) = 2.
Proof. vm_compute. repeat split; reflexivity. Qed.

(** ** Forced loads *)

(** C3, as stated, fails: the [isLoading] guard comes before the [reload]
    flag is looked at, so the second of two [load(true)] calls made while
    the first is pending issues nothing. *)
Lemma C3_counterexample_forced_load_while_loading :
  let o0 := state_of (Obs.setParams (VObject 1) new_Observable) in
  let o1 := state_of (Obs.load true None o0) in
  let o2 := state_of (Obs.load true None o1) in
  calls_issued o1 = calls_issued o0 + 1 /\
  calls_issued o2 = calls_issued o1.
Proof. vm_compute. split; reflexivity. Qed.

(** C3, amended: [load(true)] issues exactly one new underlying call when
    the instance is not loading and [lastLoadedParams] is not the MOCKING
    sentinel, whether or not [params] equals [lastLoadedParams]; when the
    instance is loading or mocked it issues none. *)
Theorem C3_forced_load_calls (o : Observable) (cb : option Callback) :
  let o' := state_of (Obs.load true cb o) in
  let n := if isLoading o || strict_equals (lastLoadedParams o) MOCKING
           then 0 else 1 in
  calls_issued o' = calls_issued o + n /\
  length (inflight o') = length (inflight o) + n.
Proof.
  cbn zeta. destruct (isLoading o) eqn:Hl; cbn [orb].
  - rewrite load_while_loading by assumption. cbn. lia.
  - destruct (strict_equals (lastLoadedParams o) MOCKING) eqn:Hm.
    + assert (Ha : load_starts true o = false)
        by (unfold load_starts; rewrite Hl, Hm; reflexivity).
      destruct (load_skipped true cb o Hl Ha)
        as (_ & _ & _ & _ & _ & _ & _ & Hi & Ht).
      rewrite Hi. unfold calls_issued.
      destruct Ht as [-> | (f & _ & ->)]; [lia|].
      rewrite calls_in_app. cbn. lia.
    + assert (Ha : load_starts true o = true)
        by (unfold load_starts; rewrite Hl, Hm; reflexivity).
      destruct (load_started true cb o Ha)
        as (o' & -> & _ & _ & _ & _ & _ & _ & _ & Hi & Ht).
      cbn [state_of]. unfold calls_issued.
      rewrite Hi, Ht, calls_in_app, length_app. cbn. lia.
Qed.

(** ** Completion of the underlying call *)

(** Whatever the state, the first thing the [then] handler does is the
    dispatch of "data", with [error] and [isLoading] as the handler found
    them. *)
Lemma fulfilled_dispatches_first (pd : Pending) (d : value) (o : Observable) :
  exists rest,
    trace (state_of (Completion.handlers pd (Resolved d) o)) =
    trace o ++ Dispatched "data" (mkMeta d (error o) (isLoading o)) :: rest.
Proof.
  cbn [Completion.handlers]. js_run.
  destruct (truthy d); cbn;
    (destruct (on_result pd) as [f|]; cbn;
     [destruct (cb_throws f d); cbn|]);
    rewrite <- ?app_assoc; cbn; eexists; reflexivity.
Qed.

(** C4 does not hold of the code: [setData] dispatches the "data" event
    before the [then] handler clears [error] and [isLoading] and before it
    calls the callback.  After [load(true, cb)] the listeners of "data" see
    [isLoading] still true; after a rejected load and a [refetch] they see
    the error of the rejected load. *)
Theorem C4_data_dispatched_before_flags_cleared :
  let cb := mkCallback 5 (fun _ => None) in
  let o1 := run_ops [OpSetParams (VObject 1); OpLoad true (Some cb);
                     OpSettle 0 (Resolved (VObject 2))] new_Observable in
  let o2 := run_ops [OpSetParams (VObject 1); OpLoad true None;
                     OpSettle 0 (Rejected (VObject 9)); OpRefetch None;
                     OpSettle 0 (Resolved (VObject 2))] new_Observable in
  trace o1 =
    [Dispatched "loading" (mkMeta VUndefined VUndefined true);
     Called (VObject 1);
     Dispatched "data" (mkMeta (VObject 2) VUndefined true);
     Invoked 5 (VObject 2)] /\
  isLoading o1 = false /\
  trace o2 =
    [Dispatched "loading" (mkMeta VUndefined VUndefined true);
     Called (VObject 1);
     Dispatched "error" (mkMeta VUndefined (VObject 9) false);
     Called (VObject 1);
     Dispatched "data" (mkMeta (VObject 2) (VObject 9) false)] /\
  error o2 = VUndefined.
Proof. vm_compute. repeat split; reflexivity. Qed.

Section Completion_facts.

Import Completion.

Lemma fulfilled_state (pd : Pending) (d : value) (o : Observable) :
  let o' := state_of (handlers pd (Resolved d) o) in
  data o' = d /\
  isLoading o' = false /\
  error o' = default VUndefined (callback_failure (on_result pd) d) /\
  isAwake o' = (truthy d || isAwake o) /\
  inflight o' = inflight o.
Proof.
  unfold callback_failure. cbn [handlers]. js_run.
  destruct (truthy d); cbn;
    (destruct (on_result pd) as [f|]; cbn;
     [destruct (cb_throws f d); cbn|]);
    repeat split; reflexivity.
Qed.


(** C5: when the promise of an underlying call is rejected, [data] is left
    as it was, [error] is the rejection value, [isLoading] is false, and
    one "error" event is dispatched, after those assignments. *)
Theorem C5_rejection (o : Observable) (i : nat) (pd : Pending) (err : value) :
  inflight o !! i = Some pd ->
  exists o',
    settle i (Rejected err) o = Some o' /\
    data o' = data o /\
    error o' = err /\
    isLoading o' = false /\
    trace o' = trace o ++ [Dispatched "error" (mkMeta (data o) err false)] /\
    isAwake o' = isAwake o /\ params o' = params o /\
    lastLoadedParams o' = lastLoadedParams o /\
    inflight o' = delete i (inflight o).
Proof.
  intros Hlk. unfold settle. rewrite Hlk. cbn [handlers].
  eexists. split; [reflexivity|]. js_run. repeat split; reflexivity.
Qed.

Lemma C5_rejection_witness :
  let o := run_ops [OpSetData (VObject 2); OpSetParams (VObject 1);
                    OpLoad true None] new_Observable in
  exists o',
    settle 0 (Rejected (VObject 9)) o = Some o' /\
    data o' = VObject 2 /\ error o' = VObject 9 /\ isLoading o' = false.
Proof.
  intros o.
  destruct (C5_rejection o 0 (mkPending (VObject 1) None) (VObject 9))
    as (o' & E & Hd & He & Hl & _); [vm_compute; reflexivity|].
  exists o'. repeat split; assumption.
Defined.




End Completion_facts.

(** ** [ensured] and [setData] *)









(** ** [refetch] and the load after it *)




(** * Further properties of the instance *)

(** ** [awaken], [setParams], [do] *)

Lemma load_leaves_awake (r : bool) (cb : option Callback) (o : Observable) :
  isLoading o = false -> isAwake (state_of (Obs.load r cb o)) = true.
Proof.
  intros Hl. destruct (load_starts r o) eqn:Hs.
  - destruct (load_started r cb o Hs) as (o' & -> & _ & _ & Ha & _).
    exact Ha.
  - destruct (load_skipped r cb o Hl Hs) as (_ & _ & Ha & _). exact Ha.
Qed.

Lemma load_calls_at_most_one (r : bool) (cb : option Callback)
    (o : Observable) :
  calls_issued (state_of (Obs.load r cb o)) <= calls_issued o + 1.
Proof.
  destruct (isLoading o) eqn:Hl.
  - rewrite load_while_loading by assumption. cbn. lia.
  - destruct (load_starts r o) eqn:Hs.
    + destruct (load_started r cb o Hs)
        as (o' & -> & _ & _ & _ & _ & _ & _ & _ & _ & Ht).
      cbn. unfold calls_issued. rewrite Ht, calls_in_app. cbn. lia.
    + destruct (load_skipped r cb o Hl Hs)
        as (_ & _ & _ & _ & _ & _ & _ & _ & Ht).
      unfold calls_issued. destruct Ht as [-> | (f & _ & ->)]; [lia|].
      rewrite calls_in_app. cbn. lia.
Qed.

(** X1: [awaken] does nothing on an instance that is awake, it issues at
    most one underlying call, and calling it a second time right after the
    first changes nothing more. *)
Theorem X1_awaken_idempotent (o : Observable) :
  (isAwake o = true -> Obs.awaken o = Return tt o) /\
  calls_issued (state_of (Obs.awaken o)) <= calls_issued o + 1 /\
  state_of (Obs.awaken (state_of (Obs.awaken o))) = state_of (Obs.awaken o).
Proof.
  unfold Obs.awaken, js_bind, js_get, js_ret.
  destruct (isAwake o) eqn:Ha; cbn [negb].
  - cbn. rewrite Ha. cbn. repeat split; auto. lia.
  - split; [discriminate|]. split; [apply load_calls_at_most_one|].
    destruct (isLoading o) eqn:Hl.
    + rewrite (load_while_loading true None o Hl). cbn [state_of].
      rewrite Ha. cbn [negb].
      rewrite (load_while_loading true None o Hl). reflexivity.
    + rewrite (load_leaves_awake true None o Hl). reflexivity.
Qed.

Lemma X1_awaken_idempotent_witness :
  let o := state_of (Obs.setData (VObject 2) new_Observable) in
  Obs.awaken o = Return tt o.
Proof.
  intros o. apply (proj1 (X1_awaken_idempotent o)). reflexivity.
Defined.

Lemma last_called_app (t u : list Effect) :
  last_called (t ++ u) =
  match last_called u with Some p => Some p | None => last_called t end.
Proof.
  induction t as [|e t IH]; cbn.
  - destruct (last_called u); reflexivity.
  - rewrite IH. destruct (last_called u); reflexivity.
Qed.

(** X2: [setParams(p)] followed by [load()] on an instance that is neither
    loading nor mocked fetches exactly when [p] is not [===] to the params
    of the last load; the call then carries [p], which becomes
    [lastLoadedParams].  [p] is any value but an error object made by this
    code: [VError] stands for such an object by its text, and two of them
    with the same text are not [===]. *)
Theorem X2_setParams_then_load
    (o : Observable) (p : value) (cb : option Callback) :
  is_error_object p = false ->
  isLoading o = false ->
  strict_equals (lastLoadedParams o) MOCKING = false ->
  let o' := state_of (Obs.load false cb (state_of (Obs.setParams p o))) in
  if strict_equals p (lastLoadedParams o)
  then calls_issued o' = calls_issued o /\ inflight o' = inflight o /\
       isLoading o' = false /\ lastLoadedParams o' = lastLoadedParams o
  else calls_issued o' = calls_issued o + 1 /\
       inflight o' = inflight o ++ [mkPending p cb] /\
       isLoading o' = true /\ lastLoadedParams o' = p /\
       last_called (trace o') = Some p.
Proof.
  intros _ Hl Hm.
  set (o0 := state_of (Obs.setParams p o)).
  assert (Hl0 : isLoading o0 = false) by exact Hl.
  destruct (strict_equals p (lastLoadedParams o)) eqn:He; cbn zeta.
  - assert (Hs : load_starts false o0 = false).
    { unfold load_starts. cbn. rewrite Hl, He. reflexivity. }
    destruct (load_skipped false cb o0 Hl0 Hs)
      as (_ & _ & _ & Hl' & _ & _ & Hlp & Hi & Ht).
    conjs; [|exact Hi|exact Hl'|exact Hlp].
    unfold calls_issued.
    destruct Ht as [-> | (f & _ & ->)]; [reflexivity|].
    rewrite calls_in_app. cbn. lia.
  - assert (Hs : load_starts false o0 = true).
    { unfold load_starts. cbn. rewrite Hl, He, Hm. reflexivity. }
    destruct (load_started false cb o0 Hs)
      as (o' & -> & _ & _ & _ & Hl' & _ & _ & Hlp & Hi & Ht).
    cbn [state_of]. conjs; [|exact Hi|exact Hl'|exact Hlp|].
    + unfold calls_issued. rewrite Ht, calls_in_app. cbn. lia.
    + rewrite Ht, last_called_app. reflexivity.
Qed.

Lemma X2_setParams_then_load_witness :
  let o := run_ops [OpSetParams (VObject 1); OpLoad false None;
                    OpSettle 0 (Resolved (VObject 2))] new_Observable in
  calls_issued (state_of (Obs.load false None
                            (state_of (Obs.setParams (VObject 3) o)))) =
  calls_issued o + 1.
Proof.
  intros o.
  pose proof (X2_setParams_then_load o (VObject 3) None) as H.
  cbn zeta in H.
  replace (strict_equals (VObject 3) (lastLoadedParams o)) with false in H
    by (vm_compute; reflexivity).
  apply H; vm_compute; reflexivity.
Defined.

(** X3: the callback given to [do] is called exactly once, with the [data]
    field of the result and after the "data" event, when the promise of the
    call is fulfilled (what it throws then goes to an "error" event); it is
    not called when the promise is rejected. *)
Theorem X3_do_callback_delivery
    (o : Observable) (f : Callback) (d e : value) :
  load_starts true o = true ->
  let o1 := state_of (Obs.do (Some f) o) in
  let i := length (inflight o) in
  (exists o2,
     Completion.settle i (Resolved d) o1 = Some o2 /\
     trace o2 =
       trace o1 ++
       Dispatched "data" (mkMeta d VUndefined true) ::
       Invoked (cb_tag f) d ::
       match cb_throws f d with
       | Some x => [Dispatched "error" (mkMeta d x false)]
       | None => []
       end) /\
  (exists o2,
     Completion.settle i (Rejected e) o1 = Some o2 /\
     trace o2 = trace o1 ++ [Dispatched "error" (mkMeta (data o) e false)]).
Proof.
  intros Hs. unfold Obs.do.
  destruct (load_started true (Some f) o Hs)
    as (o1 & -> & Hd & He & _ & Hl & _ & _ & _ & Hi & _).
  cbn [state_of].
  assert (Hlk : inflight o1 !! length (inflight o) = Some (mkPending (params o) (Some f))).
  { rewrite Hi. apply list_lookup_middle. reflexivity. }
  unfold Completion.settle. rewrite Hlk. cbn [Completion.handlers on_result].
  split; eexists; (split; [reflexivity|]).
  - js_run. destruct (truthy d); cbn;
      (destruct (cb_throws f d); cbn);
      rewrite <- ?app_assoc; unfold meta_of; cbn; rewrite ?He, ?Hl;
      reflexivity.
  - js_run. unfold meta_of. cbn. rewrite Hd. reflexivity.
Qed.

Lemma X3_do_callback_delivery_witness :
  let f := mkCallback 5 (fun _ => None) in
  let o := state_of (Obs.setParams (VObject 1) new_Observable) in
  let o1 := state_of (Obs.do (Some f) o) in
  exists o2,
    Completion.settle 0 (Resolved (VObject 2)) o1 = Some o2 /\
    trace o2 =
      trace o1 ++ [Dispatched "data" (mkMeta (VObject 2) VUndefined true);
                   Invoked 5 (VObject 2)].
Proof.
  intros f o o1.
  destruct (X3_do_callback_delivery o f (VObject 2) VNull) as [H _];
    [reflexivity|].
  exact H.
Defined.

(** ** Mocked instances *)

Lemma settle_trace (i : nat) (r : Settlement) (o o' : Observable) :
  Completion.settle i r o = Some o' ->
  exists ext, trace o' = trace o ++ ext /\ calls_in ext = 0.
Proof.
  unfold Completion.settle.
  destruct (inflight o !! i) as [pd|]; [|discriminate]. intros [= <-].
  destruct r as [d|e]; cbn [Completion.handlers]; js_run.
  - destruct (truthy d); cbn;
      (destruct (on_result pd) as [f|]; cbn;
       [destruct (cb_throws f d); cbn|]);
      rewrite <- ?app_assoc; cbn; eexists; split; reflexivity.
  - eexists; split; reflexivity.
Qed.

Lemma run_op_mocked (op : Op) (o : Observable) :
  is_refetch op = false ->
  lastLoadedParams o = MOCKING ->
  lastLoadedParams (run_op op o) = MOCKING /\
  calls_issued (run_op op o) = calls_issued o.
Proof.
  intros Hop Hm.
  assert (Hload : forall r cb,
            lastLoadedParams (state_of (Obs.load r cb o)) = MOCKING /\
            calls_issued (state_of (Obs.load r cb o)) = calls_issued o).
  { intros r cb. destruct (isLoading o) eqn:Hl.
    - rewrite load_while_loading by assumption. split; [exact Hm|reflexivity].
    - assert (Hs : load_starts r o = false).
      { unfold load_starts. rewrite Hl, Hm. cbn. rewrite orb_true_r.
        reflexivity. }
      destruct (load_skipped r cb o Hl Hs)
        as (_ & _ & _ & _ & _ & _ & Hlp & _ & Ht).
      split; [congruence|]. unfold calls_issued.
      destruct Ht as [-> | (f & _ & ->)]; [reflexivity|].
      rewrite calls_in_app. cbn. lia. }
  destruct op; cbn [run_op]; try discriminate.
  - split; [exact Hm | reflexivity].
  - apply Hload.
  - apply Hload.
  - apply Hload.
  - unfold Obs.awaken, js_bind, js_get.
    destruct (negb (isAwake o)); [apply Hload|]. split; [exact Hm|reflexivity].
  - js_run. unfold calls_issued.
    destruct (truthy d); cbn; rewrite calls_in_app; cbn; split; auto; lia.
  - split; [exact Hm | reflexivity].
  - js_run. destruct (negb (isAwake o)); [split; [exact Hm|reflexivity]|].
    destruct (negb (truthy (data o))); split; auto.
  - destruct (Completion.settle i r o) as [o'|] eqn:E; cbn;
      [|split; [exact Hm|reflexivity]].
    apply settle_frame in E as (_ & Hlp & _ & _ & _ & Hc).
    split; congruence.
Qed.

(** X4: an instance whose [lastLoadedParams] is the MOCKING sentinel stays
    mocked and never calls the constructor's callback, whatever is done to
    it ([load], [do], [reload], [awaken], [setParams], [setData], ...) as
    long as [refetch] is not called. *)
Theorem X4_mocked_never_fetches (ops : list Op) (o : Observable) :
  forallb (fun op => negb (is_refetch op)) ops = true ->
  lastLoadedParams o = MOCKING ->
  lastLoadedParams (run_ops ops o) = MOCKING /\
  calls_issued (run_ops ops o) = calls_issued o.
Proof.
  revert o. induction ops as [|op ops IH]; intros o Hall Hm.
  - split; [exact Hm | reflexivity].
  - cbn in Hall. apply andb_true_iff in Hall as [Hop Hall].
    apply negb_true_iff in Hop.
    destruct (run_op_mocked op o Hop Hm) as [Hm1 Hc1].
    destruct (IH (run_op op o) Hall Hm1) as [Hm2 Hc2].
    change (run_ops (op :: ops) o) with (run_ops ops (run_op op o)).
    split; congruence.
Qed.

Lemma X4_mocked_never_fetches_witness :
  let o := set_lastLoadedParams MOCKING
             (state_of (Obs.setData (VObject 2) new_Observable)) in
  calls_issued
    (run_ops [OpSetParams (VObject 1); OpLoad false None; OpReload;
              OpDo None; OpAwaken] o) = calls_issued o.
Proof.
  intros o.
  apply (X4_mocked_never_fetches
           [OpSetParams (VObject 1); OpLoad false None; OpReload;
            OpDo None; OpAwaken] o); vm_compute; reflexivity.
Defined.

(** X5: on a mocked instance that is not loading, [do(cb)] gives the cached
    [data] to the callback at once, when that data is truthy, and does not
    call it otherwise; what the callback throws comes out of [do]. *)
Theorem X5_mocked_do_replays (o : Observable) (f : Callback) :
  lastLoadedParams o = MOCKING ->
  isLoading o = false ->
  let res := Obs.do (Some f) o in
  trace (state_of res) =
    trace o ++ (if truthy (data o) then [Invoked (cb_tag f) (data o)] else []) /\
  res =
    (if truthy (data o)
     then match cb_throws f (data o) with
          | Some x => Throw x (state_of res)
          | None => Return tt (state_of res)
          end
     else Return tt (state_of res)) /\
  data (state_of res) = data o /\ inflight (state_of res) = inflight o.
Proof.
  intros Hm Hl. unfold Obs.do. js_run. rewrite Hl. cbn. rewrite Hm. cbn.
  destruct (truthy (data o)); cbn.
  - destruct (cb_throws f (data o)); cbn; conjs; reflexivity.
  - rewrite app_nil_r. conjs; reflexivity.
Qed.

Lemma X5_mocked_do_replays_witness :
  let f := mkCallback 5 (fun _ => None) in
  let o := set_lastLoadedParams MOCKING
             (state_of (Obs.setData (VObject 2) new_Observable)) in
  trace (state_of (Obs.do (Some f) o)) = trace o ++ [Invoked 5 (VObject 2)].
Proof.
  intros f o.
  apply (proj1 (X5_mocked_do_replays o f eq_refl eq_refl)).
Defined.

(** ** Settlements in any order *)



(** ** What holds along every history *)

Lemma run_ops_cons (op : Op) (ops : list Op) (o : Observable) :
  run_ops (op :: ops) o = run_ops ops (run_op op o).
Proof. reflexivity. Qed.

Lemma run_ops_invariant (P : Observable -> Prop) :
  (forall op o, P o -> P (run_op op o)) ->
  forall ops o, P o -> P (run_ops ops o).
Proof.
  intros Hstep ops. induction ops as [|op ops IH]; intros o H; [exact H|].
  rewrite run_ops_cons. apply IH, Hstep, H.
Qed.

Ltac js_branches :=
  repeat match goal with
         | |- context [if ?b then _ else _] => destruct b eqn:?; cbn
         end.

Lemma load_keeps (r : bool) (cb : option Callback) (o : Observable) :
  let o' := state_of (Obs.load r cb o) in
  data o' = data o /\ isLazy o' = isLazy o /\
  (isAwake o = true -> isAwake o' = true).
Proof.
  destruct (isLoading o) eqn:Hl.
  - rewrite load_while_loading by assumption. cbn. auto.
  - destruct (load_starts r o) eqn:Hs.
    + destruct (load_started r cb o Hs)
        as (o' & -> & Hd & _ & Ha & _ & Hz & _). cbn. auto.
    + destruct (load_skipped r cb o Hl Hs) as (Hd & _ & Ha & _ & Hz & _).
      cbn zeta. auto.
Qed.

Lemma settle_data_awake (i : nat) (r : Settlement) (o o' : Observable) :
  Completion.settle i r o = Some o' ->
  (data o' = data o /\ isAwake o' = isAwake o) \/
  (isAwake o' = (truthy (data o') || isAwake o)).
Proof.
  unfold Completion.settle.
  destruct (inflight o !! i) as [pd|]; [|discriminate]. intros [= <-].
  destruct r as [d|e].
  - right.
    destruct (fulfilled_state pd d (set_inflight (delete i (inflight o)) o))
      as (Hd & _ & _ & Ha & _).
    rewrite Hd. exact Ha.
  - left. cbn [Completion.handlers]. js_run. split; reflexivity.
Qed.

(** X7: no operation and no settlement clears [isAwake] or [isLazy]. *)
Theorem X7_awake_and_lazy_are_kept (ops : list Op) (o : Observable) :
  (isAwake o = true -> isAwake (run_ops ops o) = true) /\
  (isLazy o = true -> isLazy (run_ops ops o) = true).
Proof.
  apply (run_ops_invariant
           (fun o' => (isAwake o = true -> isAwake o' = true) /\
                      (isLazy o = true -> isLazy o' = true)));
    [|split; auto].
  clear ops. intros op o1 [Ha Hz].
  assert (Hload : forall r cb,
            (isAwake o = true -> isAwake (state_of (Obs.load r cb o1)) = true) /\
            (isLazy o = true -> isLazy (state_of (Obs.load r cb o1)) = true)).
  { intros r cb. destruct (load_keeps r cb o1) as (_ & Hz1 & Ha1).
    split; intros H; [apply Ha1, Ha, H | rewrite Hz1; apply Hz, H]. }
  destruct op; cbn [run_op]; try apply Hload.
  - split; [exact Ha | exact Hz].
  - unfold Obs.awaken, js_bind, js_get.
    destruct (negb (isAwake o1)); [apply Hload | split; [exact Ha | exact Hz]].
  - unfold Obs.refetch. js_run. split; [exact Ha | exact Hz].
  - js_run. destruct (truthy d); cbn; split; auto.
  - cbn. split; auto.
  - js_run. js_branches; split; auto.
  - destruct (Completion.settle i r o1) as [o'|] eqn:E; cbn;
      [|split; [exact Ha | exact Hz]].
    unfold Completion.settle in E.
    destruct (inflight o1 !! i) as [pd|]; [|discriminate].
    injection E as <-.
    destruct (handlers_frame pd r (set_inflight (delete i (inflight o1)) o1))
      as (_ & _ & Hz1 & _ & _ & Ha1 & _).
    split; intros H; [apply Ha1, Ha, H | rewrite Hz1; apply Hz, H].
Qed.

Lemma X7_awake_and_lazy_are_kept_witness :
  let o := state_of (Obs.lazy (state_of (Obs.awaken new_Observable))) in
  let o' := run_ops [OpSetData VUndefined; OpSettle 0 (Rejected VNull);
                     OpSetParams VNull] o in
  isAwake o' = true /\ isLazy o' = true.
Proof.
  intros o o'.
  destruct (X7_awake_and_lazy_are_kept
              [OpSetData VUndefined; OpSettle 0 (Rejected VNull);
               OpSetParams VNull] o) as [Ha Hz].
  split; [apply Ha | apply Hz]; reflexivity.
Defined.

(** X8: on an instance that has only been used through its methods, truthy
    [data] implies [isAwake], so [ensured] returns exactly when [data] is
    truthy. *)
Theorem X8_ensured_on_reachable (ops : list Op) :
  let o := run_ops ops new_Observable in
  (truthy (data o) = true -> isAwake o = true) /\
  throws (Obs.ensured o) = negb (truthy (data o)).
Proof.
  cbn zeta.
  assert (H : truthy (data (run_ops ops new_Observable)) = true ->
              isAwake (run_ops ops new_Observable) = true).
  { apply (run_ops_invariant
             (fun o => truthy (data o) = true -> isAwake o = true));
      [|discriminate].
    clear ops. intros op o Hinv.
    assert (Hload : forall r cb,
              truthy (data (state_of (Obs.load r cb o))) = true ->
              isAwake (state_of (Obs.load r cb o)) = true).
    { intros r cb. destruct (load_keeps r cb o) as (Hd & _ & Ha).
      rewrite Hd. intros H. apply Ha, Hinv, H. }
    destruct op; cbn [run_op]; try apply Hload.
    - exact Hinv.
    - unfold Obs.awaken, js_bind, js_get.
      destruct (negb (isAwake o)); [apply Hload | exact Hinv].
    - unfold Obs.refetch. js_run. exact Hinv.
    - js_run. destruct (truthy d) eqn:Hd; cbn; [reflexivity|].
      rewrite Hd. discriminate.
    - exact Hinv.
    - js_run. js_branches; exact Hinv.
    - destruct (Completion.settle i r o) as [o'|] eqn:E; cbn; [|exact Hinv].
      apply settle_data_awake in E as [[Hd Ha] | Ha].
      + rewrite Hd, Ha. exact Hinv.
      + intros Ht. rewrite Ha, Ht. reflexivity. }
  split; [exact H|].
  js_run. destruct (isAwake (run_ops ops new_Observable)) eqn:Ha; cbn.
  - destruct (truthy (data (run_ops ops new_Observable))); reflexivity.
  - destruct (truthy (data (run_ops ops new_Observable))) eqn:Ht;
      [|reflexivity].
    specialize (H eq_refl). congruence.
Qed.

Lemma X8_ensured_on_reachable_witness :
  let o := run_ops [OpSetParams (VObject 1); OpRefetch None;
                    OpSettle 0 (Resolved (VObject 2))] new_Observable in
  isAwake o = true /\ throws (Obs.ensured o) = false.
Proof.
  intros o.
  destruct (X8_ensured_on_reachable
              [OpSetParams (VObject 1); OpRefetch None;
               OpSettle 0 (Resolved (VObject 2))]) as [Ha Ht].
  split; [apply Ha; reflexivity | exact Ht].
Defined.

Lemma last_called_quiet (t ext : list Effect) :
  calls_in ext = 0 -> last_called (t ++ ext) = last_called t.
Proof.
  intros H. rewrite last_called_app.
  assert (E : last_called ext = None); [|rewrite E; reflexivity].
  induction ext as [|e ext IH]; [reflexivity|].
  destruct e; cbn in *; try discriminate; rewrite (IH H); reflexivity.
Qed.

(** X10: on an instance that has only been used through its methods,
    [lastLoadedParams] is the argument of the most recent underlying call,
    and [undefined] as long as there has been none. *)
Theorem X10_lastLoadedParams_is_last_call (ops : list Op) :
  let o := run_ops ops new_Observable in
  lastLoadedParams o = default VUndefined (last_called (trace o)).
Proof.
  cbn zeta.
  apply (run_ops_invariant
           (fun o => lastLoadedParams o
                     = default VUndefined (last_called (trace o))));
    [|reflexivity].
  clear ops. intros op o Hinv.
  assert (Hload : forall r cb,
            lastLoadedParams (state_of (Obs.load r cb o)) =
            default VUndefined
              (last_called (trace (state_of (Obs.load r cb o))))).
  { intros r cb. destruct (isLoading o) eqn:Hl.
    - rewrite load_while_loading by assumption. exact Hinv.
    - destruct (load_starts r o) eqn:Hs.
      + destruct (load_started r cb o Hs)
          as (o' & -> & _ & _ & _ & _ & _ & _ & Hlp & _ & Ht).
        cbn [state_of]. rewrite Hlp, Ht, last_called_app. reflexivity.
      + destruct (load_skipped r cb o Hl Hs)
          as (_ & _ & _ & _ & _ & _ & Hlp & _ & Ht).
        rewrite Hlp.
        destruct Ht as [-> | (f & _ & ->)]; [exact Hinv|].
        rewrite last_called_quiet by reflexivity. exact Hinv. }
  destruct op; cbn [run_op]; try apply Hload.
  - exact Hinv.
  - unfold Obs.awaken, js_bind, js_get.
    destruct (negb (isAwake o)); [apply Hload | exact Hinv].
  - unfold Obs.refetch. js_run. rewrite last_called_app. reflexivity.
  - js_run. destruct (truthy d); cbn;
      rewrite last_called_quiet by reflexivity; exact Hinv.
  - exact Hinv.
  - js_run. js_branches; exact Hinv.
  - destruct (Completion.settle i r o) as [o'|] eqn:E; cbn; [|exact Hinv].
    destruct (settle_trace i r o o' E) as (ext & Ht & Hq).
    apply settle_frame in E as (_ & Hlp & _).
    rewrite Hlp, Ht, last_called_quiet by exact Hq. exact Hinv.
Qed.

(** * The hooks *)

Lemma mount_unfold (hook_params : value) (o : Observable) :
  Hook.mount hook_params o =
  let o0 := if truthy hook_params then set_params hook_params o else o in
  if negb (isAwake o0) && negb (isLazy o0)
  then Obs.load true None o0 else Return tt o0.
Proof.
  unfold Hook.mount, Hook.render, Hook.attach, Obs.setParams,
    js_bind, js_get, js_modify, js_ret.
  destruct (truthy hook_params); cbn;
    match goal with |- context [if ?b then _ else _] => destruct b end;
    reflexivity.
Qed.

Lemma load_without_callback_returns (r : bool) (o : Observable) :
  throws (Obs.load r None o) = false.
Proof. js_run. js_branches; reflexivity. Qed.

(** X11: the first render of [useObservable] with its effect starts a load
    exactly when the instance is not awake, not lazy, not loading and not
    mocked; the constructor's callback is then called with the params
    given to the hook, when they are truthy, and with the params of the
    instance otherwise, [isLoading] and [isAwake] having been set.  In the
    other cases nothing is fetched, nothing is thrown and [data] is left
    as it is. *)
Theorem X11_mount_autoload (o : Observable) (hook_params : value) :
  let res := Hook.mount hook_params o in
  let o' := state_of res in
  let p := if truthy hook_params then hook_params else params o in
  params o' = p /\
  if isAwake o || isLazy o || isLoading o
     || strict_equals (lastLoadedParams o) MOCKING
  then throws res = false /\
       calls_issued o' = calls_issued o /\ inflight o' = inflight o /\
       data o' = data o /\ isLoading o' = isLoading o
  else calls_issued o' = calls_issued o + 1 /\
       isLoading o' = true /\ isAwake o' = true /\
       last_called (trace o') = Some p.
Proof.
  cbn zeta. rewrite mount_unfold. cbn zeta.
  set (p := if truthy hook_params then hook_params else params o).
  assert (F : let o0 := if truthy hook_params
                        then set_params hook_params o else o in
              data o0 = data o /\ isAwake o0 = isAwake o /\
              isLazy o0 = isLazy o /\ isLoading o0 = isLoading o /\
              lastLoadedParams o0 = lastLoadedParams o /\
              inflight o0 = inflight o /\ trace o0 = trace o /\
              params o0 = p).
  { unfold p. destruct (truthy hook_params); cbn; conjs; reflexivity. }
  cbn zeta in F. clearbody p.
  generalize dependent
    (if truthy hook_params then set_params hook_params o else o).
  intros o0 (Fd & Fa & Fz & Fl & Flp & Fi & Ft & Fp).
  rewrite Fa, Fz.
  destruct (isAwake o) eqn:Ha; cbn [negb andb orb].
  { cbn. unfold calls_issued. rewrite Ft. conjs; auto. }
  destruct (isLazy o) eqn:Hz; cbn [negb andb orb].
  { cbn. unfold calls_issued. rewrite Ft. conjs; auto. }
  destruct (isLoading o) eqn:Hl; cbn [orb].
  { rewrite load_while_loading by congruence. cbn.
    unfold calls_issued. rewrite Ft. conjs; auto. }
  destruct (strict_equals (lastLoadedParams o) MOCKING) eqn:Hm.
  - assert (Hs : load_starts true o0 = false).
    { unfold load_starts. rewrite Fl, Flp, Hm. reflexivity. }
    destruct (load_skipped true None o0 Fl Hs)
      as (Hd & _ & _ & Hl' & _ & Hp & _ & Hi & Ht).
    assert (Htr : trace (state_of (Obs.load true None o0)) = trace o).
    { destruct Ht as [Ht | (f & Hf & _)]; [congruence | discriminate]. }
    conjs; try congruence.
    + apply load_without_callback_returns.
    + unfold calls_issued. rewrite Htr. reflexivity.
  - assert (Hs : load_starts true o0 = true).
    { unfold load_starts. rewrite Fl, Flp, Hm. reflexivity. }
    destruct (load_started true None o0 Hs)
      as (o' & -> & _ & _ & Ha' & Hl' & _ & Hp & _ & Hi & Ht).
    cbn [state_of throws]. conjs; try congruence.
    + unfold calls_issued. rewrite Ht, calls_in_app, Ft. cbn. lia.
    + rewrite Ht, last_called_app, Fp. reflexivity.
Qed.

Lemma X11_mount_autoload_witness :
  let o' := state_of (Hook.mount (VObject 1) new_Observable) in
  let lz := state_of (Hook.mount (VObject 1)
                        (state_of (Obs.lazy new_Observable))) in
  (calls_issued o' = 1 /\ last_called (trace o') = Some (VObject 1)) /\
  calls_issued lz = 0.
Proof.
  intros o' lz. split.
  - destruct (X11_mount_autoload new_Observable (VObject 1))
      as (_ & Hc & _ & _ & Hlast).
    split; [exact Hc | exact Hlast].
  - destruct (X11_mount_autoload (state_of (Obs.lazy new_Observable))
                (VObject 1)) as (_ & _ & Hc & _).
    exact Hc.
Defined.



(** * Connected instances *)

Section Net_facts.

Import Net.

Lemma setData_data (d : value) (o : Observable) :
  data (state_of (Obs.setData d o)) = d.
Proof. js_run. destruct (truthy d); reflexivity. Qed.

Lemma net_setData_S (fuel r : nat) (d : value) (n : Net.t) :
  Net.setData (S fuel) r d n =
  match instances n !! r with
  | None => None
  | Some o =>
      notify (Net.setData fuel) r (listeners_of r (with_instance r (after_setData d o) n))
        (with_instance r (after_setData d o) n)
  end.
Proof. reflexivity. Qed.

Lemma net_setData_leaf (fuel r : nat) (d : value) (n : Net.t)
    (o : Observable) :
  instances n !! r = Some o ->
  listeners_of r n = [] ->
  Net.setData (S fuel) r d n = Some (with_instance r (after_setData d o) n).
Proof.
  intros Hr Hl. rewrite net_setData_S, Hr.
  change (listeners_of r (with_instance r (after_setData d o) n)) with (listeners_of r n).
  rewrite Hl. reflexivity.
Qed.

Lemma notify_replicate (fuel k this observable : nat) (n : Net.t)
    (o_obs o_this : Observable) :
  this <> observable ->
  instances n !! observable = Some o_obs ->
  instances n !! this = Some o_this ->
  listeners_of this n = [] ->
  notify (Net.setData (S fuel)) observable (replicate k this) n =
  Some (with_instance this (Nat.iter k (after_setData (data o_obs)) o_this) n).
Proof.
  intros Hne Ho. revert n o_this Ho.
  induction k as [|k IH]; intros n o_this Ho Ht Hl.
  - cbn. unfold with_instance. rewrite insert_id by exact Ht. destruct n; reflexivity.
  - cbn [replicate notify]. rewrite Ho.
    rewrite (net_setData_leaf fuel this (data o_obs) n o_this Ht Hl).
    rewrite (IH (with_instance this (after_setData (data o_obs) o_this) n)
               (after_setData (data o_obs) o_this)).
    + unfold with_instance. cbn [instances data_listeners].
      rewrite insert_insert_eq, Nat.iter_succ_r. reflexivity.
    + unfold with_instance. cbn. rewrite lookup_insert_ne by exact Hne. exact Ho.
    + unfold with_instance. cbn. apply lookup_insert_eq.
    + exact Hl.
Qed.

Lemma net_setData_replicate
    (fuel k this observable : nat) (d : value) (n : Net.t)
    (o_obs o_this : Observable) :
  this <> observable ->
  instances n !! observable = Some o_obs ->
  instances n !! this = Some o_this ->
  listeners_of observable n = replicate k this ->
  listeners_of this n = [] ->
  exists n',
    Net.setData (S (S fuel)) observable d n = Some n' /\
    instances n' !! observable = Some (after_setData d o_obs) /\
    instances n' !! this = Some (Nat.iter k (after_setData d) o_this) /\
    data_listeners n' = data_listeners n /\
    (forall r, r <> this -> r <> observable ->
               instances n' !! r = instances n !! r).
Proof.
  intros Hne Ho Ht Hlo Hlt.
  rewrite net_setData_S, Ho.
  change (listeners_of observable (with_instance observable (after_setData d o_obs) n))
    with (listeners_of observable n).
  rewrite Hlo.
  rewrite (notify_replicate fuel k this observable
             (with_instance observable (after_setData d o_obs) n) (after_setData d o_obs) o_this Hne).
  - eexists. split; [reflexivity|]. unfold with_instance, after_setData.
    cbn [instances data_listeners]. rewrite setData_data. conjs.
    + rewrite lookup_insert_ne by exact Hne. apply lookup_insert_eq.
    + apply lookup_insert_eq.
    + reflexivity.
    + intros r H1 H2. rewrite !lookup_insert_ne by congruence. reflexivity.
  - unfold with_instance. cbn. apply lookup_insert_eq.
  - unfold with_instance. cbn. rewrite lookup_insert_ne by congruence. exact Ht.
  - exact Hlt.
Qed.


(** X16: when [this] was connected [k] times to [observable] and nothing
    is connected to [this], [observable.setData(d)] stores [d] in
    [observable] and runs [this.setData(d)] [k] times, once for each
    [connectData]: [this] ends with [d] as its data, and has dispatched
    "data" [k] times. *)
Theorem X16_setData_reaches_the_connected
    (fuel k this observable : nat) (d : value) (n : Net.t)
    (o_obs o_this : Observable) :
  this <> observable ->
  instances n !! observable = Some o_obs ->
  instances n !! this = Some o_this ->
  listeners_of observable n = replicate k this ->
  listeners_of this n = [] ->
  exists n',
    Net.setData (S (S fuel)) observable d n = Some n' /\
    instances n' !! observable = Some (after_setData d o_obs) /\
    instances n' !! this = Some (Nat.iter k (after_setData d) o_this) /\
    data_listeners n' = data_listeners n /\
    (forall r, r <> this -> r <> observable ->
               instances n' !! r = instances n !! r).
Proof. apply net_setData_replicate. Qed.

Lemma X16_setData_reaches_the_connected_witness :
  let n0 := Net.mk {[1 := new_Observable; 2 := new_Observable]} ∅ in
  let n := snd (connectData 2 1 (snd (connectData 2 1 n0))) in
  exists n',
    Net.setData 2 1 (VObject 5) n = Some n' /\
    instances n' !! 2 =
      Some (after_setData (VObject 5)
              (after_setData (VObject 5) new_Observable)).
Proof.
  intros n0 n.
  destruct (X16_setData_reaches_the_connected 0 2 2 1 (VObject 5) n
              new_Observable new_Observable)
    as (n' & E & _ & H & _); try (vm_compute; reflexivity).
  - discriminate.
  - exists n'. split; [exact E | exact H].
Defined.

(** X17: [connectData] returns the instance listened to and copies
    nothing: every instance is as it was, so [this] does not get the data
    [observable] already has; and the connection goes one way, a later
    [this.setData(d)] changes [this] alone. *)
Theorem X17_connectData_is_one_way
    (fuel this observable : nat) (d : value) (n : Net.t)
    (o_this : Observable) :
  this <> observable ->
  instances n !! this = Some o_this ->
  listeners_of this n = [] ->
  let n1 := snd (connectData this observable n) in
  fst (connectData this observable n) = observable /\
  instances n1 = instances n /\
  listeners_of observable n1 = listeners_of observable n ++ [this] /\
  Net.setData (S fuel) this d n1 =
    Some (with_instance this (after_setData d o_this) n1) /\
  (forall r, r <> this ->
     instances (with_instance this (after_setData d o_this) n1) !! r =
     instances n !! r).
Proof.
  intros Hne Ht Hl. cbn zeta. unfold connectData. cbn [fst snd].
  conjs.
  - reflexivity.
  - reflexivity.
  - unfold listeners_of at 1. cbn. rewrite lookup_insert_eq. reflexivity.
  - apply net_setData_leaf; cbn; [exact Ht|].
    unfold listeners_of in *. cbn.
    rewrite lookup_insert_ne by congruence. exact Hl.
  - intros r Hr. cbn. apply lookup_insert_ne. congruence.
Qed.

Lemma X17_connectData_is_one_way_witness :
  let n0 := Net.mk {[1 := after_setData (VObject 9) new_Observable;
                     2 := new_Observable]} ∅ in
  let n1 := snd (connectData 2 1 n0) in
  instances n1 !! 2 = Some new_Observable /\
  Net.setData 1 2 (VObject 5) n1 =
    Some (with_instance 2 (after_setData (VObject 5) new_Observable) n1).
Proof.
  intros n0 n1.
  destruct (X17_connectData_is_one_way 0 2 1 (VObject 5) n0 new_Observable)
    as (_ & Hi & _ & Hs & _); try (vm_compute; reflexivity).
  - discriminate.
  - split; [|exact Hs]. fold n1 in Hi. rewrite Hi. vm_compute. reflexivity.
Defined.

Lemma same_shape_trans (a b c : Net.t) :
  same_shape a b -> same_shape b c -> same_shape a c.
Proof.
  intros [H1 H2] [H3 H4]. split; [congruence|]. intros r H. auto.
Qed.

Lemma notify_shape (run : nat -> value -> Net.t -> option Net.t) (r : nat) :
  (forall x d m m', run x d m = Some m' -> same_shape m m') ->
  forall ls n n', notify run r ls n = Some n' -> same_shape n n'.
Proof.
  intros Hrun ls. induction ls as [|x ls IH]; intros n n'; cbn.
  - intros [= <-]. split; auto.
  - destruct (instances n !! r) as [o|]; [|discriminate].
    destruct (run x (data o) n) as [m|] eqn:E; [|discriminate].
    intros H. eapply same_shape_trans; [eapply Hrun, E | apply IH, H].
Qed.

Lemma net_setData_shape (fuel : nat) :
  forall x d n n', Net.setData fuel x d n = Some n' -> same_shape n n'.
Proof.
  induction fuel as [|fuel IH]; intros x d n n'; [discriminate|].
  rewrite net_setData_S.
  destruct (instances n !! x) as [o|] eqn:Hx; [|discriminate].
  intros H. apply (notify_shape _ _ IH) in H.
  eapply same_shape_trans; [|exact H].
  split; [reflexivity|]. intros r Hr. cbn.
  destruct (decide (x = r)) as [<-|Hd].
  - rewrite lookup_insert_eq. eauto.
  - rewrite lookup_insert_ne by exact Hd. exact Hr.
Qed.

Lemma mutually_connected_shape (r t : nat) (n n' : Net.t) :
  same_shape n n' -> mutually_connected r t n -> mutually_connected r t n'.
Proof.
  intros [Hl Hi] (Hr & Ht & H1 & H2). unfold mutually_connected, listeners_of.
  rewrite Hl. auto.
Qed.

Lemma notify_never_ends (run : nat -> value -> Net.t -> option Net.t)
    (r t : nat) :
  (forall x d m m', run x d m = Some m' -> same_shape m m') ->
  (forall d m, mutually_connected r t m -> run t d m = None) ->
  forall ls n,
    In t ls -> mutually_connected r t n -> notify run r ls n = None.
Proof.
  intros Hshape Hnone ls.
  induction ls as [|x ls IH]; intros n Hin Hc; [destruct Hin|].
  cbn. destruct (instances n !! r) as [o|]; [|reflexivity].
  destruct (run x (data o) n) as [m|] eqn:E; [|reflexivity].
  destruct Hin as [<- | Hin].
  - rewrite (Hnone (data o) n Hc) in E. discriminate.
  - apply IH; [exact Hin|].
    eapply mutually_connected_shape; [eapply Hshape, E | exact Hc].
Qed.

Lemma mutually_connected_sym (r t : nat) (n : Net.t) :
  mutually_connected r t n -> mutually_connected t r n.
Proof. intros (A & B & C & D). repeat split; assumption. Qed.

Lemma cycle_never_ends (fuel : nat) :
  forall r t d n,
    mutually_connected r t n -> Net.setData fuel r d n = None.
Proof.
  induction fuel as [|fuel IH]; intros r t d n Hc; [reflexivity|].
  rewrite net_setData_S.
  destruct Hc as ([o Ho] & Ht & H1 & H2). rewrite Ho.
  apply (notify_never_ends _ r t).
  - apply net_setData_shape.
  - intros d' m Hm. apply (IH t r). apply mutually_connected_sym, Hm.
  - exact H1.
  - assert (Hs : same_shape n (with_instance r (after_setData d o) n)).
    { split; [reflexivity|]. intros k Hk. cbn.
      destruct (decide (r = k)) as [<-|Hd].
      - rewrite lookup_insert_eq. eauto.
      - rewrite lookup_insert_ne by exact Hd. exact Hk. }
    eapply mutually_connected_shape; [exact Hs|].
    repeat split; eauto.
Qed.

(** X18: when two instances are connected to each other, or one instance
    to itself, the calls of [setData] that a [setData] on either of them
    sets off nest deeper than any bound: whatever the depth allowed, it is
    reached.  (What an engine does when its stack is exhausted inside a
    listener is not part of the model.) *)
Theorem X18_mutual_connection_nests_without_bound
    (this observable : nat) (n : Net.t) (o_this o_obs : Observable) :
  instances n !! this = Some o_this ->
  instances n !! observable = Some o_obs ->
  let n2 := snd (connectData observable this
                   (snd (connectData this observable n))) in
  forall fuel d,
    Net.setData fuel this d n2 = None /\
    Net.setData fuel observable d n2 = None.
Proof.
  intros Ht Ho n2 fuel d.
  assert (Hc : mutually_connected observable this n2).
  { unfold mutually_connected, n2, connectData, listeners_of. cbn.
    split; [eauto|]. split; [eauto|]. split.
    - destruct (decide (this = observable)) as [<-|Hd].
      + rewrite lookup_insert_eq. cbn. apply in_or_app. right. left.
        reflexivity.
      + rewrite lookup_insert_ne by exact Hd. rewrite lookup_insert_eq.
        cbn. apply in_or_app. right. left. reflexivity.
    - rewrite lookup_insert_eq. cbn. apply in_or_app. right. left.
      reflexivity. }
  split.
  - apply (cycle_never_ends fuel this observable).
    apply mutually_connected_sym, Hc.
  - apply (cycle_never_ends fuel observable this), Hc.
Qed.

Lemma X18_mutual_connection_nests_without_bound_witness :
  let n := Net.mk {[1 := new_Observable; 2 := new_Observable]} ∅ in
  Net.setData 50 1 (VObject 5)
    (snd (connectData 2 1 (snd (connectData 1 2 n)))) = None.
Proof.
  intros n.
  apply (X18_mutual_connection_nests_without_bound 1 2 n new_Observable
           new_Observable); vm_compute; reflexivity.
Defined.


(** X19: the data goes along a chain of connections: when [a] is
    connected to [b] and [b] to [c], [c.setData(d)] leaves [d] in all
    three. *)
Theorem X19_setData_along_a_chain
    (fuel a b c : nat) (d : value) (n : Net.t) (oa ob oc : Observable) :
  a <> b -> a <> c -> b <> c ->
  instances n !! a = Some oa ->
  instances n !! b = Some ob ->
  instances n !! c = Some oc ->
  listeners_of c n = [b] ->
  listeners_of b n = [a] ->
  listeners_of a n = [] ->
  exists n',
    Net.setData (S (S (S fuel))) c d n = Some n' /\
    instances n' !! c = Some (after_setData d oc) /\
    instances n' !! b = Some (after_setData d ob) /\
    instances n' !! a = Some (after_setData d oa).
Proof.
  intros Hab Hac Hbc Ha Hb Hc Hlc Hlb Hla.
  rewrite net_setData_S, Hc.
  change (listeners_of c (with_instance c (after_setData d oc) n))
    with (listeners_of c n).
  rewrite Hlc. cbn [notify].
  set (n1 := with_instance c (after_setData d oc) n).
  assert (Hc1 : instances n1 !! c = Some (after_setData d oc))
    by apply lookup_insert_eq.
  rewrite Hc1. unfold after_setData at 1. rewrite setData_data.
  destruct (net_setData_replicate fuel 1 a b d n1 ob oa)
    as (n' & E & Hb' & Ha' & _ & Hrest); try assumption.
  - unfold n1. cbn. rewrite lookup_insert_ne by congruence. exact Hb.
  - unfold n1. cbn. rewrite lookup_insert_ne by congruence. exact Ha.
  - rewrite E. exists n'. split; [reflexivity|].
    split; [|split; [exact Hb' | exact Ha']].
    rewrite Hrest by congruence. exact Hc1.
Qed.

Lemma X19_setData_along_a_chain_witness :
  let n0 := Net.mk {[1 := new_Observable; 2 := new_Observable;
                     3 := new_Observable]} ∅ in
  let n := snd (connectData 1 2 (snd (connectData 2 3 n0))) in
  exists n',
    Net.setData 3 3 (VObject 5) n = Some n' /\
    instances n' !! 1 = Some (after_setData (VObject 5) new_Observable).
Proof.
  intros n0 n.
  destruct (X19_setData_along_a_chain 0 1 2 3 (VObject 5) n
              new_Observable new_Observable new_Observable)
    as (n' & E & _ & _ & H); try (vm_compute; reflexivity);
    try discriminate.
  exists n'. split; [exact E | exact H].
Defined.

End Net_facts.

(** * The registry of named instances *)

Lemma update_found (fuel : nat) (name : string) (d : value) (rt : Runtime)
    (r : nat) :
  get_named name rt = Found r ->
  updateObservable fuel name d rt =
  (fun n' => Return tt (with_net n' rt)) <$> Net.setData fuel r d (net rt).
Proof. intros H. unfold updateObservable. rewrite H. reflexivity. Qed.

Lemma update_unregistered (fuel : nat) (name : string) (d : value)
    (rt : Runtime) :
  registry_prototype rt = None ->
  NAMED_OBSERVABLES rt !! name = None ->
  raises (updateObservable fuel name d rt) = true.
Proof.
  intros Hp Hn. unfold updateObservable, get_named. rewrite Hn, Hp.
  destruct (bool_decide (name ∈ Object_prototype_keys)); reflexivity.
Qed.

Lemma update_unconnected (fuel : nat) (name : string) (d : value)
    (rt : Runtime) (r : nat) (o : Observable) :
  get_named name rt = Found r ->
  Net.instances (net rt) !! r = Some o ->
  Net.listeners_of r (net rt) = [] ->
  updateObservable (S fuel) name d rt =
  Some (Return tt
          (with_net (Net.with_instance r (Net.after_setData d o) (net rt))
             rt)).
Proof.
  intros Hf Ho Hl. rewrite (update_found _ _ _ _ r Hf).
  rewrite (net_setData_leaf fuel r d (net rt) o Ho Hl). reflexivity.
Qed.




(** ** Along the life of the hooks *)

Lemma eqb_neq_false (a b : string) : a <> b -> String.eqb a b = false.
Proof. intros H. apply String.eqb_neq. exact H. Qed.

Lemma track_named_plain (testId : string) (r : nat) (rt : Runtime) :
  testId <> "default" -> testId <> "__proto__" ->
  registry_prototype rt = None ->
  track_named testId r rt =
  mkRuntime (net rt) (<[testId:=r]> (NAMED_OBSERVABLES rt)) None.
Proof.
  intros H1 H2 Hp. unfold track_named.
  rewrite (eqb_neq_false _ _ H1), (eqb_neq_false _ _ H2), Hp. reflexivity.
Qed.

Lemma untrack_named_plain (testId : string) (rt : Runtime) :
  testId <> "default" ->
  untrack_named testId rt =
  mkRuntime (net rt) (delete testId (NAMED_OBSERVABLES rt))
            (registry_prototype rt).
Proof.
  intros H1. unfold untrack_named. rewrite (eqb_neq_false _ _ H1).
  reflexivity.
Qed.

(** An event under another name leaves a name as it is. *)
Lemma registry_event_other (ev : RegistryEvent) (rt : Runtime)
    (testId : string) :
  event_name ev <> testId -> event_name ev <> "__proto__" ->
  registry_prototype rt = None ->
  let rt' := registry_event ev rt in
  registry_prototype rt' = None /\ net rt' = net rt /\
  NAMED_OBSERVABLES rt' !! testId = NAMED_OBSERVABLES rt !! testId.
Proof.
  intros Hn Hq Hp. destruct ev as [t r | t]; cbn in *.
  - destruct (String.eqb t "default") eqn:Hd.
    + unfold track_named. rewrite Hd. auto.
    + apply String.eqb_neq in Hd.
      rewrite (track_named_plain t r rt Hd Hq Hp). cbn.
      conjs; auto. apply lookup_insert_ne. exact Hn.
  - destruct (String.eqb t "default") eqn:Hd.
    + unfold untrack_named. rewrite Hd. auto.
    + apply String.eqb_neq in Hd.
      rewrite (untrack_named_plain t rt Hd). cbn.
      conjs; auto. apply lookup_delete_ne. exact Hn.
Qed.

Lemma registry_events_other (evs : list RegistryEvent) (rt : Runtime)
    (testId : string) :
  Forall (fun ev => event_name ev <> testId /\ event_name ev <> "__proto__")
    evs ->
  registry_prototype rt = None ->
  let rt' := registry_events evs rt in
  registry_prototype rt' = None /\ net rt' = net rt /\
  NAMED_OBSERVABLES rt' !! testId = NAMED_OBSERVABLES rt !! testId.
Proof.
  revert rt. induction evs as [|ev evs IH]; intros rt Hall Hp; cbn zeta.
  - auto.
  - inversion Hall as [|? ? [H1 H2] Hrest]; subst.
    destruct (registry_event_other ev rt testId H1 H2 Hp) as (Hp1 & Hn1 & Hl1).
    destruct (IH (registry_event ev rt) Hrest Hp1) as (Hp2 & Hn2 & Hl2).
    change (registry_events (ev :: evs) rt)
      with (registry_events evs (registry_event ev rt)).
    conjs; congruence.
Qed.

(** X13: from the effect that registers a hook under a testId other than
    "default" and [__proto__], and whatever hooks with other names (none
    of them [__proto__]) mount and unmount in the meantime,
    [updateObservable(testId, d)] is [setData(d)] on the instance of the
    hook, and returns with the data stored when nothing is connected to
    that instance; after the clean-up of the hook it throws.  A hook named
    "default" is not registered. *)
Theorem X13_named_between_mount_and_unmount
    (rt : Runtime) (testId : string) (r : nat) (d : value) (fuel : nat)
    (evs : list RegistryEvent) :
  testId <> "default" ->
  testId <> "__proto__" ->
  registry_prototype rt = None ->
  Forall (fun ev => event_name ev <> testId /\ event_name ev <> "__proto__")
    evs ->
  let mounted := registry_events evs (track_named testId r rt) in
  NAMED_OBSERVABLES mounted !! testId = Some r /\
  updateObservable fuel testId d mounted =
    (fun n' => Return tt (with_net n' mounted))
      <$> Net.setData fuel r d (net rt) /\
  (forall o,
     Net.instances (net rt) !! r = Some o ->
     Net.listeners_of r (net rt) = [] ->
     updateObservable (S fuel) testId d mounted =
     Some (Return tt
             (with_net (Net.with_instance r (Net.after_setData d o) (net rt))
                mounted))) /\
  raises (updateObservable fuel testId d (untrack_named testId mounted))
    = true /\
  track_named "default" r rt = rt.
Proof.
  intros H1 H2 Hp Hall. cbn zeta.
  pose proof (track_named_plain testId r rt H1 H2 Hp) as Et.
  destruct (registry_events_other evs (track_named testId r rt) testId Hall)
    as (Hp' & Hn' & Hl').
  { rewrite Et. reflexivity. }
  set (mounted := registry_events evs (track_named testId r rt)) in *.
  assert (Hl : NAMED_OBSERVABLES mounted !! testId = Some r).
  { rewrite Hl', Et. cbn. apply lookup_insert_eq. }
  assert (Hn : net mounted = net rt) by (rewrite Hn', Et; reflexivity).
  assert (Hf : get_named testId mounted = Found r).
  { unfold get_named. rewrite Hl. reflexivity. }
  conjs.
  - exact Hl.
  - rewrite (update_found fuel testId d mounted r Hf), Hn. reflexivity.
  - intros o Ho Hlis.
    rewrite (update_unconnected fuel testId d mounted r o Hf); rewrite ?Hn;
      auto.
  - apply update_unregistered.
    + rewrite (untrack_named_plain testId mounted H1). exact Hp'.
    + rewrite (untrack_named_plain testId mounted H1). cbn.
      apply lookup_delete_eq.
  - reflexivity.
Qed.

Lemma X13_named_between_mount_and_unmount_witness :
  let rt := mkRuntime (Net.mk {[7 := new_Observable; 8 := new_Observable]} ∅)
              ∅ None in
  let mounted := registry_events [Mounted "other" 8; Unmounted "other"]
                   (track_named "rows" 7 rt) in
  raises (updateObservable 1 "rows" (VObject 2) mounted) = false /\
  raises (updateObservable 1 "rows" (VObject 2)
            (untrack_named "rows" mounted)) = true.
Proof.
  intros rt mounted.
  destruct (X13_named_between_mount_and_unmount rt "rows" 7 (VObject 2) 0
              [Mounted "other" 8; Unmounted "other"])
    as (_ & _ & Hret & _); try discriminate; try reflexivity.
  { repeat constructor; discriminate. }
  destruct (X13_named_between_mount_and_unmount rt "rows" 7 (VObject 2) 1
              [Mounted "other" 8; Unmounted "other"])
    as (_ & _ & _ & Hu & _); try discriminate; try reflexivity.
  { repeat constructor; discriminate. }
  split; [|exact Hu].
  fold mounted in Hret.
  rewrite (Hret new_Observable); vm_compute; reflexivity.
Defined.

(** X14: when two hooks use the same testId (other than "default" and
    [__proto__]), the registry holds the instance registered last:
    [updateObservable] runs [setData] on that one and, when nothing is
    connected to it, changes no other instance.  The clean-up of either
    hook deletes the name, after which [updateObservable] throws although
    a hook with that name is still mounted. *)
Theorem X14_shared_name
    (rt : Runtime) (testId : string) (r1 r2 : nat) (o2 : Observable)
    (d : value) (fuel : nat) :
  testId <> "default" ->
  testId <> "__proto__" ->
  registry_prototype rt = None ->
  Net.instances (net rt) !! r2 = Some o2 ->
  Net.listeners_of r2 (net rt) = [] ->
  let both := track_named testId r2 (track_named testId r1 rt) in
  (exists rt',
     updateObservable (S fuel) testId d both = Some (Return tt rt') /\
     Net.instances (net rt') !! r2 = Some (Net.after_setData d o2) /\
     (forall r, r <> r2 ->
        Net.instances (net rt') !! r = Net.instances (net rt) !! r)) /\
  raises (updateObservable (S fuel) testId d (untrack_named testId both))
    = true.
Proof.
  intros H1 H2 Hp Ho Hl. cbn zeta.
  rewrite (track_named_plain testId r1 rt H1 H2 Hp).
  rewrite (track_named_plain testId r2
             (mkRuntime (net rt) (<[testId:=r1]> (NAMED_OBSERVABLES rt)) None)
             H1 H2 eq_refl).
  cbn [net NAMED_OBSERVABLES].
  split.
  - eexists. split.
    + apply (update_unconnected fuel testId d _ r2 o2); cbn; auto.
      unfold get_named. cbn. rewrite lookup_insert_eq. reflexivity.
    + cbn. split; [apply lookup_insert_eq|].
      intros r Hr. apply lookup_insert_ne. congruence.
  - apply update_unregistered.
    + rewrite (untrack_named_plain testId _ H1). reflexivity.
    + rewrite (untrack_named_plain testId _ H1). cbn.
      apply lookup_delete_eq.
Qed.

Lemma X14_shared_name_witness :
  let rt := mkRuntime (Net.mk {[1 := new_Observable; 2 := new_Observable]} ∅)
              ∅ None in
  let both := track_named "rows" 2 (track_named "rows" 1 rt) in
  raises (updateObservable 1 "rows" (VObject 2) (untrack_named "rows" both))
    = true.
Proof.
  intros rt both.
  apply (X14_shared_name rt "rows" 1 2 new_Observable (VObject 2) 0);
    try discriminate; vm_compute; reflexivity.
Defined.

(** X15: whatever is connected, a call of [updateObservable] that returns
    or throws leaves the registry, its prototype and the connections as
    they are and keeps the registry well formed.  When nothing is
    connected to the instance registered under the name, no other
    instance changes, and the instance is seen with the new data under
    every name it is registered under. *)
Theorem X15_update_frame
    (rt : Runtime) (fuel : nat) (name : string) (d : value)
    (res : Outcome Runtime unit) :
  updateObservable fuel name d rt = Some res ->
  let rt' := state_of res in
  NAMED_OBSERVABLES rt' = NAMED_OBSERVABLES rt /\
  registry_prototype rt' = registry_prototype rt /\
  Net.data_listeners (net rt') = Net.data_listeners (net rt) /\
  (registry_wf rt -> registry_wf rt') /\
  (forall r o,
     NAMED_OBSERVABLES rt !! name = Some r ->
     Net.instances (net rt) !! r = Some o ->
     Net.listeners_of r (net rt) = [] ->
     net rt' = Net.with_instance r (Net.after_setData d o) (net rt) /\
     (forall r', r' <> r ->
        Net.instances (net rt') !! r' = Net.instances (net rt) !! r') /\
     (forall other,
        NAMED_OBSERVABLES rt !! other = Some r ->
        exists o', Net.instances (net rt') !! r = Some o' /\ data o' = d)).
Proof.
  intros E. cbn zeta.
  assert (Hshape : NAMED_OBSERVABLES (state_of res) = NAMED_OBSERVABLES rt /\
                   registry_prototype (state_of res) = registry_prototype rt /\
                   Net.same_shape (net rt) (net (state_of res))).
  { unfold updateObservable in E.
    destruct (get_named name rt) as [r| | |]; try discriminate.
    - destruct (Net.setData fuel r d (net rt)) as [n'|] eqn:En;
        [|discriminate].
      injection E as <-. cbn. conjs; auto.
      apply (net_setData_shape fuel r d _ _ En).
    - injection E as <-. cbn. conjs; auto. split; auto.
    - injection E as <-. cbn. conjs; auto. split; auto. }
  destruct Hshape as (Hn & Hp & Hl & Hi).
  conjs; auto.
  - intros [Hwf Hproto]. split; [|rewrite Hn; exact Hproto].
    rewrite Hn. intros k r Hk. apply Hi, (Hwf k r Hk).
  - intros r o Hr Ho Hlis.
    assert (Hf : get_named name rt = Found r).
    { unfold get_named. rewrite Hr. reflexivity. }
    destruct fuel as [|fuel].
    { rewrite (update_found 0 name d rt r Hf) in E. discriminate. }
    rewrite (update_unconnected fuel name d rt r o Hf Ho Hlis) in E.
    injection E as <-. cbn. conjs.
    + reflexivity.
    + intros r' Hr'. apply lookup_insert_ne. congruence.
    + intros other _. eexists. split; [apply lookup_insert_eq|].
      apply setData_data.
Qed.

Lemma X15_update_frame_witness :
  let rt := track_named "b" 7 (track_named "a" 7
              (mkRuntime
                 (Net.mk {[7 := new_Observable; 8 := new_Observable]} ∅)
                 ∅ None)) in
  exists res,
    updateObservable 1 "a" (VObject 2) rt = Some res /\
    (exists o', Net.instances (net (state_of res)) !! 7 = Some o' /\
                data o' = VObject 2) /\
    Net.instances (net (state_of res)) !! 8 = Net.instances (net rt) !! 8.
Proof.
  intros rt. eexists. split; [vm_compute; reflexivity|].
  match goal with
  | |- context [state_of ?r] =>
      destruct (X15_update_frame rt 1 "a" (VObject 2) r)
        as (_ & _ & _ & _ & H); [vm_compute; reflexivity|]
  end.
  destruct (H 7 new_Observable) as (_ & Hother & Halias);
    try (vm_compute; reflexivity).
  split.
  - apply (Halias "b"). vm_compute. reflexivity.
  - apply Hother. discriminate.
Defined.


(** * The loader component *)

Section Loader_facts.

Import Loader.

Variable ReactElement : Type.

Implicit Types (p q : ObservableLoaderProps ReactElement).

Lemma renders_after_first (ps : list (ObservableLoaderProps ReactElement))
    (i : nat) q :
  ps !! i = Some q ->
  renders_from true ps !! i =
  Some (if truthy (observe_error (observe q)) then errorContent q
        else children q tt).
Proof.
  revert i. induction ps as [|p ps IH]; intros i H; [discriminate|].
  destruct i as [|i]; cbn in *.
  - injection H as ->. reflexivity.
  - apply IH, H.
Qed.

(** X20: of the renders of one [ObservableLoader], only the first can show
    the loading content, and it does so when [observe.loading] is truthy,
    whatever [observe.error] is; every later render shows the error
    content when [observe.error] is truthy and the children otherwise,
    also while [observe.loading] is true. *)
Theorem X20_loading_content_only_at_first_render
    p (ps : list (ObservableLoaderProps ReactElement)) (i : nat) q :
  ps !! i = Some q ->
  renders (p :: ps) !! 0 =
    Some (if truthy (observe_loading (observe p)) then loadingContent p
          else if truthy (observe_error (observe p)) then errorContent p
          else children p tt) /\
  renders (p :: ps) !! S i =
    Some (if truthy (observe_error (observe q)) then errorContent q
          else children q tt).
Proof.
  intros H. split; [reflexivity|].
  apply (renders_after_first ps i q H).
Qed.

End Loader_facts.

Lemma X20_loading_content_only_at_first_render_witness :
  let busy := Loader.mkProps nat (Loader.mkObserve (VBool true) VUndefined)
                (fun _ => 0) 1 2 in
  Loader.renders [busy; busy] !! 1 = Some 0.
Proof.
  intros busy.
  apply (proj2 (X20_loading_content_only_at_first_render nat busy [busy] 0
                  busy eq_refl)).
Defined.

(** * The rows *)

(** X21: the callback of the [getRows] model passes on the [id] of its
    params and nothing else, so its promise is fulfilled with the two rows
    for every request, [causeError] set or not, although [Rows.getRows]
    rejects exactly the requests whose [causeError] is true. *)
Theorem X21_model_drops_causeError (params : RowsApi.GetRowsRequest) :
  RowsApi.model_callback params =
    RowsApi.Resolves [RowsApi.mkRow "row-1"; RowsApi.mkRow "row-2"] /\
  (RowsApi.getRows params = RowsApi.Rejects "This is an error" <->
   RowsApi.causeError params = Some true) /\
  (RowsApi.getRows params =
     RowsApi.Resolves [RowsApi.mkRow "row-1"; RowsApi.mkRow "row-2"] <->
   RowsApi.causeError params <> Some true).
Proof.
  split; [reflexivity|]. unfold RowsApi.getRows.
  destruct (RowsApi.causeError params) as [[|]|]; cbn;
    split; split; intros H; try reflexivity; try discriminate;
    try congruence.
Qed.

(** * After a failure; two calls pending *)

Lemma settle_last_rejected (o : Observable) (pd : Pending) (l : list Pending)
    (err : value) :
  inflight o = l ++ [pd] ->
  exists o',
    Completion.settle (length l) (Rejected err) o = Some o' /\
    error o' = err /\ isLoading o' = false /\ isAwake o' = isAwake o /\
    params o' = params o /\ lastLoadedParams o' = lastLoadedParams o /\
    data o' = data o /\ calls_issued o' = calls_issued o /\
    inflight o' = l.
Proof.
  intros Hi. unfold Completion.settle.
  rewrite Hi, list_lookup_middle by reflexivity.
  eexists. split; [reflexivity|]. cbn [Completion.handlers]. js_run.
  unfold calls_issued. cbn. rewrite calls_in_app. cbn.
  conjs; try reflexivity; [lia|].
  rewrite ?Hi. rewrite (delete_middle l []). apply app_nil_r.
Qed.

(** X9: after the promise of a load was rejected, [load()] with the same
    params does not try again: it returns at the equality guard and the
    error stays.  [reload()] does try again, with the same params, and
    clears the error as it starts. *)
Theorem X9_failed_load_is_retried_by_reload_only
    (o : Observable) (r : bool) (cb1 cb2 : option Callback) (err : value) :
  load_starts r o = true ->
  strict_equals (params o) (params o) = true ->
  strict_equals (params o) MOCKING = false ->
  exists o2,
    Completion.settle (length (inflight o)) (Rejected err)
      (state_of (Obs.load r cb1 o)) = Some o2 /\
    error o2 = err /\
    Obs.load false cb2 o2 = Return tt o2 /\
    let o3 := state_of (Obs.reload o2) in
    error o3 = VUndefined /\ isLoading o3 = true /\
    calls_issued o3 = calls_issued o2 + 1 /\
    last_called (trace o3) = Some (params o).
Proof.
  intros Hs Hrefl Hm.
  destruct (load_started r cb1 o Hs)
    as (o1 & -> & _ & _ & Ha & _ & _ & Hp & Hlp & Hi & _).
  cbn [state_of].
  destruct (settle_last_rejected o1 _ _ err Hi)
    as (o2 & E & He & Hl & Ha2 & Hp2 & Hlp2 & _ & _ & _).
  exists o2. split; [exact E|]. split; [exact He|].
  assert (Hp' : params o2 = params o) by congruence.
  assert (Hlp' : lastLoadedParams o2 = params o) by congruence.
  split.
  - js_run. rewrite Hl. cbn. rewrite Hp', Hlp', Hrefl, Hm. cbn.
    rewrite set_isAwake_id by congruence. reflexivity.
  - assert (Hs2 : load_starts true o2 = true).
    { unfold load_starts. rewrite Hl, Hlp', Hm. reflexivity. }
    unfold Obs.reload.
    destruct (load_started true None o2 Hs2)
      as (o3 & -> & _ & He3 & _ & Hl3 & _ & _ & _ & _ & Ht3).
    cbn [state_of]. conjs; [exact He3 | exact Hl3 | |].
    + unfold calls_issued. rewrite Ht3, calls_in_app. cbn. lia.
    + rewrite Ht3, last_called_app, Hp'. reflexivity.
Qed.

Lemma X9_failed_load_is_retried_by_reload_only_witness :
  let o := state_of (Obs.setParams (VObject 1) new_Observable) in
  exists o2,
    Completion.settle 0 (Rejected (VObject 9))
      (state_of (Obs.load false None o)) = Some o2 /\
    error o2 = VObject 9 /\
    Obs.load false None o2 = Return tt o2.
Proof.
  intros o.
  destruct (X9_failed_load_is_retried_by_reload_only o false None None
              (VObject 9)) as (o2 & E & He & Hn & _);
    try (vm_compute; reflexivity).
  exists o2. split; [exact E|]. split; [exact He | exact Hn].
Defined.

(** X22: [isLoading] is cleared by whichever promise is settled first.
    When a [refetch] was made while a load is pending and the promise of
    the [refetch] is settled before that of the load, [isLoading] is false
    although the call of the load is still pending. *)
Theorem X22_loading_cleared_by_first_settlement
    (o : Observable) (r : bool) (cb cb' : option Callback)
    (res : Settlement) :
  load_starts r o = true ->
  let o2 := state_of (Obs.refetch cb' (state_of (Obs.load r cb o))) in
  isLoading o2 = true /\
  exists o3,
    Completion.settle (S (length (inflight o))) res o2 = Some o3 /\
    isLoading o3 = false /\
    inflight o3 = inflight o ++ [mkPending (params o) cb].
Proof.
  intros Hs.
  destruct (load_started r cb o Hs)
    as (o1 & -> & _ & _ & _ & Hl & _ & Hp & _ & Hi & _).
  cbn [state_of]. cbn zeta.
  set (o2 := state_of (Obs.refetch cb' o1)).
  assert (Hi2 : inflight o2 =
                (inflight o ++ [mkPending (params o) cb])
                ++ [mkPending (params o) cb']).
  { unfold o2. js_run. rewrite Hi, Hp. reflexivity. }
  assert (Hl2 : isLoading o2 = true) by (unfold o2; js_run; exact Hl).
  split; [exact Hl2|].
  assert (Hlen : S (length (inflight o)) =
                 length (inflight o ++ [mkPending (params o) cb])).
  { rewrite length_app. cbn. lia. }
  assert (Hlk : inflight o2 !! S (length (inflight o)) =
                Some (mkPending (params o) cb')).
  { rewrite Hi2, Hlen. apply list_lookup_middle. reflexivity. }
  destruct (Completion.settle (S (length (inflight o))) res o2)
    as [o3|] eqn:E.
  - exists o3. split; [reflexivity|].
    apply settle_frame in E as (_ & _ & Hi3 & Hl3 & _).
    split; [exact Hl3|].
    rewrite Hi3, Hi2, Hlen, (delete_middle _ []). apply app_nil_r.
  - unfold Completion.settle in E. rewrite Hlk in E. discriminate.
Qed.

Lemma X22_loading_cleared_by_first_settlement_witness :
  let o := state_of (Obs.setParams (VObject 1) new_Observable) in
  let o2 := state_of (Obs.refetch None (state_of (Obs.load true None o))) in
  exists o3,
    Completion.settle 1 (Resolved (VObject 2)) o2 = Some o3 /\
    isLoading o3 = false /\ length (inflight o3) = 1.
Proof.
  intros o o2.
  destruct (X22_loading_cleared_by_first_settlement o true None None
              (Resolved (VObject 2))) as (_ & o3 & E & Hl & Hi);
    [reflexivity|].
  exists o3. split; [exact E|]. split; [exact Hl|].
  rewrite Hi. reflexivity.
Defined.
